(** * The scene editor's editing session (InstancesFullEditor)

  A shallow embedding of [newIDE/app/src/SceneEditor/InstancesFullEditor/index.js]:
  the React component that owns the selection, the undo/redo history and the
  view settings of one open scene, and that mutates the scene's
  instances container in place.

  The functors of [GDL/ObjectHelpers.h] on game objects come with it.

  The component's collaborators ([./History], [./InstancesSelection], the
  [gd.InitialInstancesContainer] and [gd.HighestZOrderFinder] bindings) are
  imported by the component but defined elsewhere; they are modelled here from
  their documented contracts, each under a comment that says so. *)

From Stdlib Require Import ZArith Lia.
From stdpp Require Import base option list strings gmap pretty.

Local Open Scope string_scope.
Local Open Scope list_scope.
Local Open Scope Z_scope.

(** ** JavaScript values held by the view settings *)

Module Js.

Inductive Value : Type :=
| Undefined
| Null
| Bool (b : bool)
| Number (n : Z)
| String (s : string).

(** [ToBoolean]: what [!v] and [v || w] look at. Numbers are the integral
    ones; [NaN] is not represented. *)
Definition truthy (v : Value) : bool :=
  match v with
  | Undefined | Null => false
  | Bool b => b
  | Number n => negb (n =? 0)
  | String s => negb (String.eqb s "")
  end.

(** [!v] *)
Definition not (v : Value) : Value := Bool (negb (truthy v)).

(** [o.k], for an object [o] used as a record of settings. *)
Definition get (o : gmap string Value) (k : string) : Value :=
  default Undefined (o !! k).

(** [{ ...a, ...b }]: the keys of [b] win. *)
Definition spread (a b : gmap string Value) : gmap string Value := b ∪ a.

(** A JavaScript number as the views hand them over for positions and zoom
    factors: a binary64 value, which when finite is a signed integer times a
    power of two. The component passes these on and computes nothing with
    them. *)
Inductive Num : Type :=
| NaN
| Infinity (negative : bool)
| Finite (negative : bool) (mantissa : N) (exponent : Z).

(** The number that holds the integer [n]. *)
Definition ofZ (n : Z) : Num := Finite (n <? 0) (Z.to_N (Z.abs n)) 0.

(** The binary64 value nearest to the integer [n], ties going to the even
    mantissa: an integer of magnitude below [2 ^ 53] is held exactly, a
    larger one is held to 53 significant bits. *)
Definition roundInteger (n : Z) : Z :=
  let a := Z.abs n in
  if a <? 2 ^ 53 then n
  else
    let ulp := 2 ^ (Z.log2 a - 52) in
    let q := a / ulp in
    let r := a mod ulp in
    let q' := if 2 * r <? ulp then q
              else if ulp <? 2 * r then q + 1
              else if Z.even q then q else q + 1 in
    Z.sgn n * (q' * ulp).

(** [a + b] for two numbers that hold integers: the sum is exact or rounded
    as binary64 does. The result is a number the binding of the z-orders is
    given back, so it is kept as the integer it holds; sums of magnitude
    [2 ^ 1024] and more, which are no integers in binary64, are beyond what
    such a binding hands out. *)
Definition addIntegers (a b : Z) : Z := roundInteger (a + b).

End Js.

(** An integer written where a number is expected is the number holding it. *)
Coercion Js.ofZ : Z >-> Js.Num.

Abbreviation UiSettings := (gmap string Js.Value).

(** ** The scene graph: [gd.InitialInstancesContainer] *)

(** An instance is known to the editor by reference only. *)
Definition InstanceRef : Type := nat.

(** Modelled from the spec: the [gd.InitialInstance] binding is not among the
    sources. An instance has the attributes "objectName (string), x, y
    (numeric position), zOrder (integer), layerName (string)"; positions are
    the JavaScript numbers the component is given, z-orders the integers the
    binding holds. *)
Record InitialInstance : Type := mkInstance {
  getObjectName : string;
  getX : Js.Num;
  getY : Js.Num;
  getZOrder : Z;
  getLayer : string;
}.

(** Modelled from the spec: the [gd.InitialInstancesContainer] binding is not
    among the sources. The scene graph is "an arena of instances addressed by
    stable identifiers"; the instances are kept in insertion order, with the
    next identifier to hand out. *)
Record InitialInstancesContainer : Type := mkContainer {
  instances : list (InstanceRef * InitialInstance);
  nextRef : InstanceRef;
}.

(** Modelled from the spec: the value of the "new, default-valued" instance
    that [insertInstance] returns is not among the sources; numbers default to
    0 and strings to the empty string. *)
Definition defaultInstance : InitialInstance :=
  {| getObjectName := ""; getX := 0; getY := 0; getZOrder := 0; getLayer := "" |}.

(** Modelled from the spec: [insertNewInitialInstance] of the missing
    container, "insertInstance() → Instance (new, default-valued)". *)
Definition insertNewInitialInstance (c : InitialInstancesContainer)
  : InstanceRef * InitialInstancesContainer :=
  (nextRef c,
   {| instances := instances c ++ [(nextRef c, defaultInstance)];
      nextRef := S (nextRef c) |}).

(** Modelled from the spec: the setters of the missing [gd.InitialInstance]
    write through a reference into the graph; "operations given references
    that no longer exist in the graph are defined to silently skip that
    reference". *)
Definition updateInstance (r : InstanceRef) (f : InitialInstance → InitialInstance)
    (c : InitialInstancesContainer) : InitialInstancesContainer :=
  {| instances :=
       (λ p : InstanceRef * InitialInstance,
          if Nat.eqb p.1 r then (p.1, f p.2) else p) <$> instances c;
     nextRef := nextRef c |}.

(** Modelled from the spec: [setObjectName] of the missing
    [gd.InitialInstance]. *)
Definition setObjectName (r : InstanceRef) (name : string) :=
  updateInstance r (λ i, {| getObjectName := name; getX := getX i; getY := getY i;
                            getZOrder := getZOrder i; getLayer := getLayer i |}).

(** Modelled from the spec: [setX] of the missing [gd.InitialInstance]. *)
Definition setX (r : InstanceRef) (x : Js.Num) :=
  updateInstance r (λ i, {| getObjectName := getObjectName i; getX := x; getY := getY i;
                            getZOrder := getZOrder i; getLayer := getLayer i |}).

(** Modelled from the spec: [setY] of the missing [gd.InitialInstance]. *)
Definition setY (r : InstanceRef) (y : Js.Num) :=
  updateInstance r (λ i, {| getObjectName := getObjectName i; getX := getX i; getY := y;
                            getZOrder := getZOrder i; getLayer := getLayer i |}).

(** Modelled from the spec: [setZOrder] of the missing [gd.InitialInstance]. *)
Definition setZOrder (r : InstanceRef) (z : Z) :=
  updateInstance r (λ i, {| getObjectName := getObjectName i; getX := getX i; getY := getY i;
                            getZOrder := z; getLayer := getLayer i |}).

(** Modelled from the spec: the layer assignment of the missing
    [gd.InitialInstance], as used by [moveInstancesToLayer]. *)
Definition setLayer (name : string) (i : InitialInstance) : InitialInstance :=
  {| getObjectName := getObjectName i; getX := getX i; getY := getY i;
     getZOrder := getZOrder i; getLayer := name |}.

(** Modelled from the spec: [removeInstance] of the missing container,
    "removeInstance(Instance)"; a stale reference removes nothing. *)
Definition removeInstance (r : InstanceRef) (c : InitialInstancesContainer)
  : InitialInstancesContainer :=
  {| instances := filter (λ p : InstanceRef * InitialInstance, p.1 ≠ r) (instances c);
     nextRef := nextRef c |}.

(** Modelled from the spec: [removeAllInstancesOnLayer] of the missing
    container, which "removes every instance on layerName from the graph". *)
Definition removeAllInstancesOnLayer (layerName : string) (c : InitialInstancesContainer)
  : InitialInstancesContainer :=
  {| instances :=
       filter (λ p : InstanceRef * InitialInstance, getLayer p.2 ≠ layerName) (instances c);
     nextRef := nextRef c |}.

(** Modelled from the spec: [moveInstancesToLayer] of the missing container,
    which "reassigns every such instance's layerName to targetLayer". *)
Definition moveInstancesToLayer (fromLayer toLayer : string) (c : InitialInstancesContainer)
  : InitialInstancesContainer :=
  {| instances :=
       (λ p : InstanceRef * InitialInstance,
          if String.eqb (getLayer p.2) fromLayer then (p.1, setLayer toLayer p.2) else p)
       <$> instances c;
     nextRef := nextRef c |}.

(** Modelled from the spec: [iterateOverInstances] of the missing container,
    "iterateInstances(visitor)". The visitor is applied to every instance in
    turn; it is an object, so what it has accumulated is its state [V]. *)
Definition iterateOverInstances {V : Type} (visit : V → InitialInstance → V)
    (c : InitialInstancesContainer) (v : V) : V :=
  foldl visit v (instances c).*2.

(** Reading through a reference; [None] for a stale one. *)
Fixpoint findInstance (r : InstanceRef) (l : list (InstanceRef * InitialInstance))
  : option InitialInstance :=
  match l with
  | [] => None
  | p :: l => if Nat.eqb p.1 r then Some p.2 else findInstance r l
  end.

Definition lookupInstance (r : InstanceRef) (c : InitialInstancesContainer)
  : option InitialInstance :=
  findInstance r (instances c).

Definition refs (c : InitialInstancesContainer) : list InstanceRef := (instances c).*1.

(** Modelled from the spec: the serialized form is not among the sources. A
    history entry is "an immutable serialized snapshot of the full scene-graph
    state"; references are not part of it. *)
Definition HistoryEntry : Type := list InitialInstance.

(** Modelled from the spec: "snapshot() → HistoryEntry", the full-state
    capture of the missing container. *)
Definition snapshot (c : InitialInstancesContainer) : HistoryEntry := (instances c).*2.

(** Modelled from the spec: "restore(HistoryEntry)" of the missing container.
    The content is fully replaced; "live Instance references from before the
    restore are invalidated", so the restored instances come under
    identifiers that were never handed out. *)
Definition restore (e : HistoryEntry) (c : InitialInstancesContainer)
  : InitialInstancesContainer :=
  {| instances := zip (seq (nextRef c) (length e)) e;
     nextRef := (nextRef c + length e)%nat |}.

(** ** The history of snapshots: [./History] *)

(** Modelled from the spec: the state of the missing [./History], "past:
    ordered sequence of HistoryEntry, present: HistoryEntry, future: ordered
    sequence of HistoryEntry". *)
Record HistoryState : Type := mkHistory {
  past : list HistoryEntry;
  present : HistoryEntry;
  future : list HistoryEntry;
}.

Module History.
Section WithDepth.

(** The "fixed maximum depth" of [past]; its value is not given. *)
Variable maxDepth : nat.

(** Modelled from the spec: the cap of the missing [./History], "past is
    capped at a fixed maximum depth (oldest entries evicted first)". The
    oldest entries are at the head of [past]. *)
Definition capped (entries : list HistoryEntry) : list HistoryEntry :=
  drop (length entries - maxDepth) entries.

(** Modelled from the spec: [./History] is imported by the component and
    absent from its file. [initialState] is a "snapshot of current graph as
    the sole present, empty past/future". *)
Definition getHistoryInitialState (c : InitialInstancesContainer) : HistoryState :=
  {| past := []; present := snapshot c; future := [] |}.

(** Modelled from the spec: [commit] "pushes the previous present onto past,
    takes a fresh snapshot of sceneGraph as the new present, and clears
    future"; "past is capped at a fixed maximum depth (oldest entries evicted
    first)". *)
Definition saveToHistory (h : HistoryState) (c : InitialInstancesContainer)
  : HistoryState :=
  {| past := capped (past h ++ [present h]); present := snapshot c; future := [] |}.

(** Modelled from the spec: [undo], "if past is empty, returns history
    unchanged; otherwise pops the last past entry, pushes current present
    onto the front of future, restores the scene graph's content from the
    popped entry, and that entry becomes the new present". The container is
    mutated, so it is returned too. *)
Definition undo (h : HistoryState) (c : InitialInstancesContainer)
  : HistoryState * InitialInstancesContainer :=
  match last (past h) with
  | None => (h, c)
  | Some e =>
      ({| past := take (length (past h) - 1) (past h);
          present := e;
          future := present h :: future h |},
       restore e c)
  end.

(** Modelled from the spec: [redo], "symmetric: if future empty, no-op;
    otherwise pops the first future entry, pushes current present onto past,
    restores the graph, entry becomes new present". *)
Definition redo (h : HistoryState) (c : InitialInstancesContainer)
  : HistoryState * InitialInstancesContainer :=
  match future h with
  | [] => (h, c)
  | e :: rest =>
      ({| past := past h ++ [present h]; present := e; future := rest |},
       restore e c)
  end.

(** Modelled from the spec: [canUndo] of the missing [./History], "past
    non-empty". *)
Definition canUndo (h : HistoryState) : bool :=
  match past h with [] => false | _ => true end.

(** Modelled from the spec: [canRedo] of the missing [./History], "future
    non-empty". *)
Definition canRedo (h : HistoryState) : bool :=
  match future h with [] => false | _ => true end.

End WithDepth.
End History.

(** ** The selection: [./InstancesSelection] *)

(** Modelled from the spec: [./InstancesSelection] is imported by the component
    and absent from its file. The selection is "an ordered set of Instance
    references, unique by identity"; [select] "adds reference if absent; no-op
    if already present", [clear] "empties the set unconditionally". *)
Definition InstancesSelection : Type := list InstanceRef.

(** Modelled from the spec: the constructor of the missing class; the
    selection is "created empty per editing session". *)
Definition newInstancesSelection : InstancesSelection := [].

(** Modelled from the spec: [getSelectedInstances] of the missing class,
    "current membership, stable order across calls absent mutation". *)
Definition getSelectedInstances (s : InstancesSelection) : list InstanceRef := s.

(** Modelled from the spec: [selectInstance] of the missing class, which
    "adds reference if absent; no-op if already present". *)
Definition selectInstance (r : InstanceRef) (s : InstancesSelection) : InstancesSelection :=
  if bool_decide (r ∈ s) then s else s ++ [r].

(** Modelled from the spec: [clearSelection] of the missing class, which
    "empties the set unconditionally". *)
Definition clearSelection (s : InstancesSelection) : InstancesSelection := [].

(** ** The z-order visitor: [gd.HighestZOrderFinder] *)

(** Modelled from the spec: the finder is a binding created by the component
    and defined elsewhere; it is the visitor of the "traversal used to compute
    maximum z-order". It holds the highest z-order of the instances it has
    been shown, if any. *)
Definition HighestZOrderFinder : Type := option Z.

(** Modelled from the spec: the constructor of the missing finder, which has
    been shown nothing yet. *)
Definition newHighestZOrderFinder : HighestZOrderFinder := None.

(** Modelled from the spec: what the missing finder does with each instance
    of the "traversal used to compute maximum z-order". *)
Definition visitInstance (f : HighestZOrderFinder) (i : InitialInstance)
  : HighestZOrderFinder :=
  match f with
  | None => Some (getZOrder i)
  | Some m => Some (Z.max m (getZOrder i))
  end.

(** Modelled from the spec: [getHighestZOrder] of the missing finder; a
    finder that was shown nothing answers 0. *)
Definition getHighestZOrder (f : HighestZOrderFinder) : Z := default 0 f.

(** ** The component *)

(** [this.state]. [onCloseLayerRemoveDialog] is the closure built by
    [_onRemoveLayer], held by the layer name it captured; [None] is [null]. *)
Record State : Type := mkState {
  objectsListOpen : bool;
  instancesListOpen : bool;
  setupGridOpen : bool;
  layersListOpen : bool;
  layerRemoveDialogOpen : bool;
  onCloseLayerRemoveDialog : option string;
  layerRemoved : option string;
  variablesEditedInstance : option InstanceRef;
  selectedObjectName : option string;
  uiSettings : UiSettings;
  history : HistoryState;
}.

(** What the component asks of its views and callbacks, oldest first. *)
Inductive Effect : Type :=
| SetToolbar (canUndo canRedo : bool)
| ForceUpdate
| ForceRemount
| ClearHighlightedInstance
| CenterViewOn (rs : list InstanceRef)
| SetZoomFactor (zoomFactor : Js.Num)
| Done (doRemove : bool).

(** [this]: the state, the fields set outside of it, the container received
    as [this.props.initialInstances], and the calls made so far. *)
Record Editor : Type := mkEditor {
  state : State;
  instancesSelection : InstancesSelection;
  zOrderFinder : HighestZOrderFinder;
  initialInstances : InitialInstancesContainer;
  effects : list Effect;
}.

(** [this.setState], applied at once: every handler reads [this.state]
    before its single [setState] and handlers run one after the other. *)
Definition setState (f : State → State) (e : Editor) : Editor :=
  {| state := f (state e); instancesSelection := instancesSelection e;
     zOrderFinder := zOrderFinder e; initialInstances := initialInstances e;
     effects := effects e |}.

Definition emit (ev : Effect) (e : Editor) : Editor :=
  {| state := state e; instancesSelection := instancesSelection e;
     zOrderFinder := zOrderFinder e; initialInstances := initialInstances e;
     effects := effects e ++ [ev] |}.

Definition withSelection (s : InstancesSelection) (e : Editor) : Editor :=
  {| state := state e; instancesSelection := s;
     zOrderFinder := zOrderFinder e; initialInstances := initialInstances e;
     effects := effects e |}.

Definition withFinder (f : HighestZOrderFinder) (e : Editor) : Editor :=
  {| state := state e; instancesSelection := instancesSelection e;
     zOrderFinder := f; initialInstances := initialInstances e;
     effects := effects e |}.

Definition withInstances (c : InitialInstancesContainer) (e : Editor) : Editor :=
  {| state := state e; instancesSelection := instancesSelection e;
     zOrderFinder := zOrderFinder e; initialInstances := c;
     effects := effects e |}.

Definition withUiSettings (u : UiSettings) (s : State) : State :=
  {| objectsListOpen := objectsListOpen s; instancesListOpen := instancesListOpen s;
     setupGridOpen := setupGridOpen s; layersListOpen := layersListOpen s;
     layerRemoveDialogOpen := layerRemoveDialogOpen s;
     onCloseLayerRemoveDialog := onCloseLayerRemoveDialog s;
     layerRemoved := layerRemoved s;
     variablesEditedInstance := variablesEditedInstance s;
     selectedObjectName := selectedObjectName s;
     uiSettings := u; history := history s |}.

Definition withHistory (h : HistoryState) (s : State) : State :=
  {| objectsListOpen := objectsListOpen s; instancesListOpen := instancesListOpen s;
     setupGridOpen := setupGridOpen s; layersListOpen := layersListOpen s;
     layerRemoveDialogOpen := layerRemoveDialogOpen s;
     onCloseLayerRemoveDialog := onCloseLayerRemoveDialog s;
     layerRemoved := layerRemoved s;
     variablesEditedInstance := variablesEditedInstance s;
     selectedObjectName := selectedObjectName s;
     uiSettings := uiSettings s; history := h |}.

Definition withSelectedObjectName (n : option string) (s : State) : State :=
  {| objectsListOpen := objectsListOpen s; instancesListOpen := instancesListOpen s;
     setupGridOpen := setupGridOpen s; layersListOpen := layersListOpen s;
     layerRemoveDialogOpen := layerRemoveDialogOpen s;
     onCloseLayerRemoveDialog := onCloseLayerRemoveDialog s;
     layerRemoved := layerRemoved s;
     variablesEditedInstance := variablesEditedInstance s;
     selectedObjectName := n;
     uiSettings := uiSettings s; history := history s |}.

Definition withVariablesEditedInstance (r : option InstanceRef) (s : State) : State :=
  {| objectsListOpen := objectsListOpen s; instancesListOpen := instancesListOpen s;
     setupGridOpen := setupGridOpen s; layersListOpen := layersListOpen s;
     layerRemoveDialogOpen := layerRemoveDialogOpen s;
     onCloseLayerRemoveDialog := onCloseLayerRemoveDialog s;
     layerRemoved := layerRemoved s;
     variablesEditedInstance := r;
     selectedObjectName := selectedObjectName s;
     uiSettings := uiSettings s; history := history s |}.

Definition withListsOpen (objects instancesL layers setupGrid : bool) (s : State) : State :=
  {| objectsListOpen := objects; instancesListOpen := instancesL;
     setupGridOpen := setupGrid; layersListOpen := layers;
     layerRemoveDialogOpen := layerRemoveDialogOpen s;
     onCloseLayerRemoveDialog := onCloseLayerRemoveDialog s;
     layerRemoved := layerRemoved s;
     variablesEditedInstance := variablesEditedInstance s;
     selectedObjectName := selectedObjectName s;
     uiSettings := uiSettings s; history := history s |}.

Definition withLayerRemoveDialog (open : bool) (closure removed : option string)
    (s : State) : State :=
  {| objectsListOpen := objectsListOpen s; instancesListOpen := instancesListOpen s;
     setupGridOpen := setupGridOpen s; layersListOpen := layersListOpen s;
     layerRemoveDialogOpen := open;
     onCloseLayerRemoveDialog := closure;
     layerRemoved := removed;
     variablesEditedInstance := variablesEditedInstance s;
     selectedObjectName := selectedObjectName s;
     uiSettings := uiSettings s; history := history s |}.

(** How a layer's instances are disposed of when the layer is removed: the
    [newLayer] the dialog answers with, [null] for deletion. *)
Inductive Disposition : Type :=
| DeleteInstances
| MoveToLayer (targetLayer : string).

Definition newLayerOf (d : Disposition) : option string :=
  match d with DeleteInstances => None | MoveToLayer l => Some l end.

Section Component.

(** The depth at which [./History] caps [past]. *)
Variable historyMaxDepth : nat.

(** [constructor(props)] followed by [componentWillMount] *)
Definition mount (initialUiSettings : UiSettings)
    (propsInitialInstances : InitialInstancesContainer) : Editor :=
  {| state :=
       {| objectsListOpen := false; instancesListOpen := false;
          setupGridOpen := false; layersListOpen := false;
          layerRemoveDialogOpen := false;
          onCloseLayerRemoveDialog := None;
          layerRemoved := None;
          variablesEditedInstance := None;
          selectedObjectName := None;
          uiSettings := initialUiSettings;
          history := History.getHistoryInitialState propsInitialInstances |};
     instancesSelection := newInstancesSelection;
     zOrderFinder := newHighestZOrderFinder;
     initialInstances := propsInitialInstances;
     effects := [] |}.

Definition getUiSettings (e : Editor) : UiSettings := uiSettings (state e).

Definition _updateToolbar (e : Editor) : Editor :=
  emit (SetToolbar (History.canUndo (history (state e)))
                   (History.canRedo (history (state e)))) e.

Definition componentDidMount (e : Editor) : Editor := _updateToolbar e.

(** [componentWillReceiveProps], by whether layout, instances or project
    differ from the current ones. *)
Definition componentWillReceiveProps (propsDiffer : bool) (e : Editor) : Editor :=
  if propsDiffer then withSelection (clearSelection (instancesSelection e)) e else e.

Definition toggleObjectsList (e : Editor) : Editor :=
  setState (λ s, withListsOpen (negb (objectsListOpen s)) (instancesListOpen s)
                   (layersListOpen s) (setupGridOpen s) s) e.

Definition toggleInstancesList (e : Editor) : Editor :=
  setState (λ s, withListsOpen (objectsListOpen s) (negb (instancesListOpen s))
                   (layersListOpen s) (setupGridOpen s) s) e.

Definition toggleLayersList (e : Editor) : Editor :=
  setState (λ s, withListsOpen (objectsListOpen s) (instancesListOpen s)
                   (negb (layersListOpen s)) (setupGridOpen s) s) e.

Definition toggleWindowMask (e : Editor) : Editor :=
  setState (λ s, withUiSettings
                   (<["windowMask" := Js.not (Js.get (uiSettings s) "windowMask")]>
                      (uiSettings s)) s) e.

Definition toggleGrid (e : Editor) : Editor :=
  setState (λ s, withUiSettings
                   (<["snap" := Js.not (Js.get (uiSettings s) "grid")]>
                      (<["grid" := Js.not (Js.get (uiSettings s) "grid")]>
                         (uiSettings s))) s) e.

Definition openSetupGrid (open : option bool) (e : Editor) : Editor :=
  setState (λ s, withListsOpen (objectsListOpen s) (instancesListOpen s)
                   (layersListOpen s) (default true open) s) e.

Definition editInstanceVariables (instance : option InstanceRef) (e : Editor) : Editor :=
  setState (withVariablesEditedInstance instance) e.

Definition setUiSettings (newSettings : UiSettings) (e : Editor) : Editor :=
  setState (λ s, withUiSettings (Js.spread (uiSettings s) newSettings) s) e.

Definition undo (e : Editor) : Editor :=
  let '(h, c) := History.undo (history (state e)) (initialInstances e) in
  _updateToolbar (emit ForceRemount (setState (withHistory h) (withInstances c e))).

Definition redo (e : Editor) : Editor :=
  let '(h, c) := History.redo (history (state e)) (initialInstances e) in
  _updateToolbar (emit ForceRemount (setState (withHistory h) (withInstances c e))).

Definition _onObjectSelected (name : option string) (e : Editor) : Editor :=
  setState (withSelectedObjectName name) e.

(** [objectName || this.state.selectedObjectName], with [objectName]
    already defaulted to the empty string when the argument is left out. *)
Definition newInstanceObjectName (objectName : option string) (e : Editor)
  : option string :=
  let objectName := default "" objectName in
  if String.eqb objectName "" then selectedObjectName (state e) else Some objectName.

(** [!name], for [name] a string or [null] *)
Definition falsyName (name : option string) : bool :=
  match name with
  | None => true
  | Some n => String.eqb n ""
  end.

Definition _onAddInstance (x y : Js.Num) (objectName : option string) (e : Editor)
  : Editor :=
  let name := newInstanceObjectName objectName e in
  if falsyName name then e
  else
    let '(instance, c) := insertNewInitialInstance (initialInstances e) in
    let c := setObjectName instance (default "" name) c in
    let c := setX instance x c in
    let c := setY instance y c in
    let finder := iterateOverInstances visitInstance c (zOrderFinder e) in
    let c := setZOrder instance (Js.addIntegers (getHighestZOrder finder) 1) c in
    let h := History.saveToHistory historyMaxDepth (history (state e)) c in
    _updateToolbar
      (setState (λ s, withHistory h (withSelectedObjectName None s))
         (withFinder finder (withInstances c e))).

Definition _onInstancesSelected (rs : list InstanceRef) (e : Editor) : Editor :=
  _updateToolbar (emit ForceUpdate e).

Definition _onInstancesMoved (rs : list InstanceRef) (e : Editor) : Editor :=
  setState (withHistory (History.saveToHistory historyMaxDepth (history (state e))
                           (initialInstances e))) e.

Definition _onInstancesModified (rs : list InstanceRef) (e : Editor) : Editor :=
  emit ForceUpdate e.

Definition _onSelectInstances (rs : list InstanceRef) (centerView : option bool)
    (e : Editor) : Editor :=
  let sel := foldl (λ s r, selectInstance r s) (clearSelection (instancesSelection e)) rs in
  let e := withSelection sel e in
  let e := if default true centerView then emit (CenterViewOn rs) e else e in
  _updateToolbar (emit ForceUpdate e).

(** The closure stored by [_onRemoveLayer] as [onCloseLayerRemoveDialog],
    with the [layerName] it captured; [done] is the caller's. *)
Definition closeLayerRemoveDialog (layerName : string) (doRemove : bool)
    (newLayer : option string) (e : Editor) : Editor :=
  let e := setState (λ s, withLayerRemoveDialog false (onCloseLayerRemoveDialog s)
                            (layerRemoved s) s) e in
  let e :=
    if doRemove then
      match newLayer with
      | None => withInstances (removeAllInstancesOnLayer layerName (initialInstances e)) e
      | Some l => withInstances (moveInstancesToLayer layerName l (initialInstances e)) e
      end
    else e in
  _updateToolbar (emit ForceRemount (emit (Done doRemove) e)).

Definition _onRemoveLayer (layerName : string) (e : Editor) : Editor :=
  setState (withLayerRemoveDialog true (Some layerName) (Some layerName)) e.

(** The dialog's answer, given to whatever closure the state holds; calling
    [null] is a [TypeError]. *)
Definition onClose (doRemove : bool) (newLayer : option string) (e : Editor)
  : option Editor :=
  (λ layerName, closeLayerRemoveDialog layerName doRemove newLayer e)
    <$> onCloseLayerRemoveDialog (state e).

Definition deleteSelection (e : Editor) : Editor :=
  let selectedInstances := getSelectedInstances (instancesSelection e) in
  let c := foldl (λ c instance, removeInstance instance c)
             (initialInstances e) selectedInstances in
  let e := withInstances c e in
  let e := withSelection (clearSelection (instancesSelection e)) e in
  let e := emit ClearHighlightedInstance e in
  let h := History.saveToHistory historyMaxDepth (history (state e))
             (initialInstances e) in
  _updateToolbar (setState (withHistory h) e).

Definition setZoomFactor (zoomFactor : Js.Num) (e : Editor) : Editor :=
  emit (SetZoomFactor zoomFactor) e.

(** A layer removal as the user sees it: the layers list asks for the
    removal, the dialog is confirmed with a disposition. *)
Definition removeLayer (layerName : string) (d : Disposition) (e : Editor)
  : option Editor :=
  onClose true (newLayerOf d) (_onRemoveLayer layerName e).

End Component.

(** ** Reading the graph the way the claims do *)

(** The z-orders of the instances of the whole graph, on every layer. *)
Definition zOrders (c : InitialInstancesContainer) : list Z :=
  getZOrder <$> snapshot c.

(** The maximum z-order over the instances of the graph; there is none for an
    empty graph. *)
Definition maximumZOrder (c : InitialInstancesContainer) : option Z :=
  foldr (λ z acc, Some (from_option (Z.max z) z acc)) None (zOrders c).

(** The highest z-order the traversal of [_onAddInstance] ends with: the
    finder is the component's single one, and the traversal runs over the
    container that already holds the new, default-valued instance. *)
Definition highestAtAdd (e : Editor) : Z :=
  Z.max (getHighestZOrder (zOrderFinder e))
        (foldr Z.max 0 (zOrders (initialInstances e))).

(** The container once the new instance is inserted and placed, before the
    traversal. *)
Definition placed (x y : Js.Num) (n : string) (c : InitialInstancesContainer)
  : InitialInstancesContainer :=
  setY (nextRef c) y
    (setX (nextRef c) x
       (setObjectName (nextRef c) n (insertNewInitialInstance c).2)).

(** ** A scene to run the component on *)

(** Instances A (z-order 1) and B (z-order 3) on layer L1. *)
Definition sceneAB : InitialInstancesContainer :=
  {| instances :=
       [ (0%nat, {| getObjectName := "A"; getX := 10; getY := 20;
                    getZOrder := 1; getLayer := "L1" |});
         (1%nat, {| getObjectName := "B"; getX := 30; getY := 40;
                    getZOrder := 3; getLayer := "L1" |}) ];
     nextRef := 2%nat |}.

(** A single instance placed below the default plane. *)
Definition sceneBelow : InitialInstancesContainer :=
  {| instances :=
       [ (0%nat, {| getObjectName := "Floor"; getX := 0; getY := 0;
                    getZOrder := -5; getLayer := "" |}) ];
     nextRef := 1%nat |}.

(** A single instance at the first z-order whose successor binary64 does not
    hold, [2 ^ 53]. *)
Definition sceneAtLimit : InitialInstancesContainer :=
  {| instances :=
       [ (0%nat, {| getObjectName := "Sky"; getX := 0; getY := 0;
                    getZOrder := 2 ^ 53; getLayer := "" |}) ];
     nextRef := 1%nat |}.

Definition gridOff : UiSettings :=
  {[ "grid" := Js.Bool false; "snap" := Js.Bool true; "windowMask" := Js.Bool false ]}.

(** The editor opened on [sceneAB]. *)
Definition editorAB : Editor := componentDidMount (mount gridOff sceneAB).

(** [editorAB] after A was selected from the instances list. *)
Definition editorASelected : Editor := _onSelectInstances [0%nat] None editorAB.

(** ** What the views are told, and what they may ask *)

(** [show] of the "Touch/click on the scene to add the object" bar:
    [!!this.state.selectedObjectName]. *)
Definition infoBarShown (e : Editor) : bool :=
  negb (falsyName (selectedObjectName (state e))).

(** [open] of the properties drawer: [!!selectedInstances.length]. *)
Definition propertiesDrawerOpen (e : Editor) : bool :=
  negb (Nat.eqb (length (getSelectedInstances (instancesSelection e))) 0).

(** What the toolbar was last given as [canUndo] and [canRedo], if it was
    given anything. *)
Definition toolbarShown (e : Editor) : option (bool * bool) :=
  last (omap (λ ev, match ev with
                    | SetToolbar u r => Some (u, r)
                    | _ => None
                    end) (effects e)).

(** What the views of [render] can do to the component: the calls they can
    make on it, and the writes they make themselves into the container they
    share with it, as the canvas does while instances are dragged and the
    properties panel does when a property is typed, before they call
    [onInstancesMoved] and [onInstancesModified]. *)
Inductive Intent : Type :=
| ViewWrites (write : InitialInstancesContainer → InitialInstancesContainer)
| InstancesModified (rs : list InstanceRef)
| ToggleObjectsList
| ToggleInstancesList
| ToggleLayersList
| ToggleWindowMask
| ToggleGrid
| OpenSetupGrid (open : option bool)
| ApplyGridSetup (gridOptions : UiSettings)
| EditInstanceVariables (instance : option InstanceRef)
| Undo
| Redo
| ObjectSelected (name : option string)
| AddInstance (x y : Js.Num) (objectName : option string)
| InstancesSelected (rs : list InstanceRef)
| InstancesMoved (rs : list InstanceRef)
| SelectInstances (rs : list InstanceRef) (centerView : option bool)
| DeleteSelection
| ZoomFactor (zoomFactor : Js.Num)
| RemoveLayer (layerName : string)
| CloseLayerRemoveDialog (doRemove : bool) (newLayer : option string).

(** The component's answer to a call. [onClose] of the layer dialog is the
    closure of the state; with none there the call throws before anything is
    written, and the component is as it was. *)
Definition handle (historyMaxDepth : nat) (i : Intent) (e : Editor) : Editor :=
  match i with
  | ViewWrites write => withInstances (write (initialInstances e)) e
  | InstancesModified rs => _onInstancesModified rs e
  | ToggleObjectsList => toggleObjectsList e
  | ToggleInstancesList => toggleInstancesList e
  | ToggleLayersList => toggleLayersList e
  | ToggleWindowMask => toggleWindowMask e
  | ToggleGrid => toggleGrid e
  | OpenSetupGrid open => openSetupGrid open e
  | ApplyGridSetup gridOptions =>
      openSetupGrid (Some false) (setUiSettings gridOptions e)
  | EditInstanceVariables instance => editInstanceVariables instance e
  | Undo => undo e
  | Redo => redo e
  | ObjectSelected name => _onObjectSelected name e
  | AddInstance x y objectName => _onAddInstance historyMaxDepth x y objectName e
  | InstancesSelected rs => _onInstancesSelected rs e
  | InstancesMoved rs => _onInstancesMoved historyMaxDepth rs e
  | SelectInstances rs centerView => _onSelectInstances rs centerView e
  | DeleteSelection => deleteSelection historyMaxDepth e
  | ZoomFactor zoomFactor => setZoomFactor zoomFactor e
  | RemoveLayer layerName => _onRemoveLayer layerName e
  | CloseLayerRemoveDialog doRemove newLayer => default e (onClose doRemove newLayer e)
  end.

(** A session: the calls are answered one after the other. *)
Definition session (historyMaxDepth : nat) (intents : list Intent) (e : Editor)
  : Editor :=
  foldl (λ e i, handle historyMaxDepth i e) e intents.

(** What changes the container without a commit: a write of a view, and the
    layer dialog closed on a confirmation. *)
Definition writesWithoutCommit (i : Intent) : bool :=
  match i with
  | ViewWrites _ => true
  | CloseLayerRemoveDialog doRemove _ => doRemove
  | _ => false
  end.

(** The calls that commit the content of the container whatever the state:
    [onInstancesMoved] and [deleteSelection]. *)
Definition alwaysCommits (i : Intent) : bool :=
  match i with
  | InstancesMoved _ | DeleteSelection => true
  | _ => false
  end.

(** The history's present is the content of the container. *)
Definition inSync (e : Editor) : Prop :=
  present (history (state e)) = snapshot (initialInstances e).

(** ** Helpers on game objects: [GDL/ObjectHelpers.h] *)

Module ObjectHelpers.

(** What the functors read of an [Object]; the class itself is declared in
    [GDL/Object.h]. *)
Record Object : Type := mkObject {
  GetName : string;
  GetZOrder : Z;
}.

(** [ObjectHasName::operator()] *)
Definition ObjectHasName (object : Object) (name : string) : bool :=
  String.eqb (GetName object) name.

(** [SortByZOrder::operator()] *)
Definition SortByZOrder (o1 o2 : Object) : bool :=
  GetZOrder o1 <? GetZOrder o2.

End ObjectHelpers.

(** ** Steam lobbies: [Extensions/Steamworks/steamworkstools.ts] *)

Module Steamworks.

(** A lobby handle of steamworks.js, which stands for the lobby of its [id],
    a bigint. *)
Definition Lobby : Type := N.

(** [lobby.id.toString(10)] *)
Definition idString (lobby : Lobby) : string := pretty lobby.

(** The names of [enum LobbyType] and their values. *)
Inductive LobbyTypeName : Type := Private | FriendsOnly | Public | Invisible.

Definition LobbyType (name : LobbyTypeName) : N :=
  match name with
  | Private => 0
  | FriendsOnly => 1
  | Public => 2
  | Invisible => 3
  end%N.

(** The calls made on the Steam client and on lobby handles. *)
Inductive SteamCall : Type :=
| CreateLobby (lobbyType : N) (maxPlayers : Z)
| GetLobbies
| JoinLobby (id : N)
| Leave (lobby : Lobby)
| OpenInviteDialog (lobby : Lobby).

Inductive LogEntry : Type :=
| Warn (message : string)
| Error (message : string).

(** The task handed back to the caller. *)
Inductive AsyncTask : Type := PromiseTask | ResolveTask.

(** What is written into the [gdjs.Variable] given for the result. *)
Inductive Written : Type :=
| SetString (value : string)
| FromJSObject (values : list string).

(** The variables of the namespace: whether [steamAPI] holds a client,
    [knownLobbies], [currentLobby]; with them, what the logger was given and
    what was called on Steam, oldest first. *)
Record Variables : Type := mkVariables {
  steamAPI : bool;
  knownLobbies : gmap string Lobby;
  currentLobby : option Lobby;
  logged : list LogEntry;
  called : list SteamCall;
}.

Definition log (entry : LogEntry) (v : Variables) : Variables :=
  {| steamAPI := steamAPI v; knownLobbies := knownLobbies v;
     currentLobby := currentLobby v; logged := logged v ++ [entry];
     called := called v |}.

Definition call (c : SteamCall) (v : Variables) : Variables :=
  {| steamAPI := steamAPI v; knownLobbies := knownLobbies v;
     currentLobby := currentLobby v; logged := logged v;
     called := called v ++ [c] |}.

(** [knownLobbies.set(id, lobby)] *)
Definition know (id : string) (lobby : Lobby) (v : Variables) : Variables :=
  {| steamAPI := steamAPI v; knownLobbies := <[id := lobby]> (knownLobbies v);
     currentLobby := currentLobby v; logged := logged v; called := called v |}.

(** [currentLobby = lobby] *)
Definition enter (lobby : Lobby) (v : Variables) : Variables :=
  {| steamAPI := steamAPI v; knownLobbies := knownLobbies v;
     currentLobby := Some lobby; logged := logged v; called := called v |}.

Definition isSteamworksProperlyLoaded (v : Variables) : bool := steamAPI v.

Definition getKnownLobby (lobbyId : string) (v : Variables)
  : option Lobby * Variables :=
  if negb (steamAPI v) then
    (None,
     log (Warn ("Could not access lobby '" +:+ lobbyId
                +:+ "', steamworks was not properly loaded!")) v)
  else
    match knownLobbies v !! lobbyId with
    | None =>
        (None,
         log (Error ("Could not access lobby '" +:+ lobbyId
                     +:+ "'! You might need to join it before trying to access it.")) v)
    | Some lobby => (Some lobby, v)
    end.

Definition createLobby (lobbyType : LobbyTypeName) (maxPlayers : Z) (v : Variables)
  : AsyncTask * Variables :=
  if steamAPI v then (PromiseTask, call (CreateLobby (LobbyType lobbyType) maxPlayers) v)
  else
    (ResolveTask,
     log (Warn "Could not create a lobby, steamworks was not properly loaded!") v).

(** The [then] of [createLobby], with the lobby Steam answered. *)
Definition createLobby_then (lobby : Lobby) (v : Variables) : Written * Variables :=
  let id := idString lobby in
  (SetString id, enter lobby (know id lobby v)).

(** The [catch] of [createLobby], [getLobbiesList] and [joinLobby]. *)
Definition failure (v : Variables) : Written * Variables :=
  (SetString "failure", v).

Definition getLobbiesList (v : Variables) : AsyncTask * Variables :=
  if steamAPI v then (PromiseTask, call GetLobbies v)
  else
    (ResolveTask,
     log (Warn "Could not obtain the lobbies list, steamworks was not properly loaded!") v).

(** The [then] of [getLobbiesList]: the [map] over the lobbies Steam
    answered registers each of them on its way. *)
Definition getLobbiesList_then (lobbies : list Lobby) (v : Variables)
  : Written * Variables :=
  (FromJSObject (idString <$> lobbies),
   foldl (λ v lobby, know (idString lobby) lobby v) v lobbies).

(** The [then] of [joinLobby], with the lobby Steam answered: it is
    registered under the identifier the caller gave. *)
Definition joinLobby_then (lobbyId : string) (lobby : Lobby) (v : Variables)
  : Written * Variables :=
  (SetString lobbyId, enter lobby (know lobbyId lobby v)).

Definition getCurrentLobbyId (v : Variables) : string :=
  match currentLobby v with
  | Some lobby => idString lobby
  | None => "none"
  end.

Definition leaveCurrentLobby (v : Variables) : Variables :=
  match currentLobby v with
  | Some lobby => call (Leave lobby) v
  | None => v
  end.

Definition openDialogForInvitingUsersToTheCurrentLobby (v : Variables) : Variables :=
  match currentLobby v with
  | Some lobby => call (OpenInviteDialog lobby) v
  | None => v
  end.

Section Reading.

(** [lobby.getData(attribute)], which Steam answers; [None] is [null]. *)
Variable getData : Lobby → string → option string.

Definition getCurrentLobbyAttribute (attribute : string) (v : Variables) : string :=
  match currentLobby v with
  | None => ""
  | Some lobby => default "" (getData lobby attribute)
  end.

Definition getLobbyAttribute (lobbyId attribute : string) (v : Variables)
  : string * Variables :=
  match getKnownLobby lobbyId v with
  | (None, v) => ("", v)
  | (Some lobby, v) => (default "" (getData lobby attribute), v)
  end.

End Reading.

(** What happens to the namespace, one thing after the other: the calls of
    the game and the answers of Steam to the promises. *)
Inductive Event : Type :=
| CallCreateLobby (lobbyType : LobbyTypeName) (maxPlayers : Z)
| LobbyCreated (lobby : Lobby)
| CallGetLobbiesList
| LobbiesListed (lobbies : list Lobby)
| CallJoinLobby (lobbyId : string)
| LobbyJoined (lobbyId : string) (lobby : Lobby)
| PromiseRejected
| CallGetKnownLobby (lobbyId : string)
| CallLeaveCurrentLobby
| CallOpenInviteDialog.

Section Joining.

(** [BigInt(lobbyId)]; [None] is the [SyntaxError] it throws. *)
Variable BigInt : string → option N.

Definition joinLobby (lobbyId : string) (v : Variables)
  : option (AsyncTask * Variables) :=
  if steamAPI v then
    (λ id, (PromiseTask, call (JoinLobby id) v)) <$> BigInt lobbyId
  else
    Some (ResolveTask,
          log (Warn "Could not join a lobby, steamworks was not properly loaded!") v).

(** The namespace after an event; a call that throws has written nothing. *)
Definition react (ev : Event) (v : Variables) : Variables :=
  match ev with
  | CallCreateLobby lobbyType maxPlayers => (createLobby lobbyType maxPlayers v).2
  | LobbyCreated lobby => (createLobby_then lobby v).2
  | CallGetLobbiesList => (getLobbiesList v).2
  | LobbiesListed lobbies => (getLobbiesList_then lobbies v).2
  | CallJoinLobby lobbyId => from_option snd v (joinLobby lobbyId v)
  | LobbyJoined lobbyId lobby => (joinLobby_then lobbyId lobby v).2
  | PromiseRejected => (failure v).2
  | CallGetKnownLobby lobbyId => (getKnownLobby lobbyId v).2
  | CallLeaveCurrentLobby => leaveCurrentLobby v
  | CallOpenInviteDialog => openDialogForInvitingUsersToTheCurrentLobby v
  end.

Definition run (events : list Event) (v : Variables) : Variables :=
  foldl (λ v ev, react ev v) v events.

End Joining.

(** The namespace as loaded, once [steamAPI] was set. *)
Definition loaded : Variables :=
  {| steamAPI := true; knownLobbies := ∅; currentLobby := None;
     logged := []; called := [] |}.

End Steamworks.

(** ** Facts about the container *)

Section ContainerFacts.

Implicit Types (c : InitialInstancesContainer) (r : InstanceRef).
Implicit Types (l : list (InstanceRef * InitialInstance)).

Lemma findInstance_update r f l :
  findInstance r ((λ p : InstanceRef * InitialInstance,
                     if Nat.eqb p.1 r then (p.1, f p.2) else p) <$> l)
  = f <$> findInstance r l.
Proof.
  induction l as [|[r' i] l IH]; simpl; [done|].
  destruct (Nat.eqb r' r) eqn:E; simpl; rewrite E; [done|apply IH].
Qed.

Lemma lookupInstance_update r f c :
  lookupInstance r (updateInstance r f c) = f <$> lookupInstance r c.
Proof. apply findInstance_update. Qed.

Lemma findInstance_app_new r i l :
  is_Some (findInstance r (l ++ [(r, i)])).
Proof.
  induction l as [|[r' i'] l IH]; simpl.
  - rewrite Nat.eqb_refl. by eexists.
  - destruct (Nat.eqb r' r); [by eexists|apply IH].
Qed.

Lemma zOrders_update r f c :
  (∀ i, getZOrder (f i) = getZOrder i) →
  zOrders (updateInstance r f c) = zOrders c.
Proof.
  intros Hf. unfold zOrders, snapshot, updateInstance; simpl.
  induction (instances c) as [|[r' i] l IH]; simpl; [done|].
  f_equal; [|apply IH]. destruct (Nat.eqb r' r); simpl; by rewrite ?Hf.
Qed.

Lemma zOrders_insert c :
  zOrders (insertNewInitialInstance c).2 = zOrders c ++ [0].
Proof.
  unfold zOrders, snapshot; simpl. by rewrite !fmap_app.
Qed.

(** Removing the references of [rs] one by one keeps exactly the instances
    whose reference is not in [rs]. *)
Lemma elem_of_remove_all rs c (p : InstanceRef * InitialInstance) :
  p ∈ instances (foldl (λ c r, removeInstance r c) c rs)
  ↔ p ∈ instances c ∧ p.1 ∉ rs.
Proof.
  revert c. induction rs as [|r rs IH]; intros c; simpl.
  - split; [intros H; split; [done|apply not_elem_of_nil]|by intros [H _]].
  - rewrite IH. unfold removeInstance; simpl.
    rewrite list_elem_of_filter, not_elem_of_cons. tauto.
Qed.

Lemma nextRef_remove_all rs c :
  nextRef (foldl (λ c r, removeInstance r c) c rs) = nextRef c.
Proof. revert c. induction rs as [|r rs IH]; intros c; simpl; [done|by rewrite IH]. Qed.

End ContainerFacts.

(** ** Facts about the z-order visitor *)

Section FinderFacts.

Lemma highest_nonneg (zs : list Z) : 0 ≤ foldr Z.max 0 zs.
Proof. induction zs as [|z zs IH]; simpl; lia. Qed.

Lemma highest_upper_bound (zs : list Z) (z : Z) :
  z ∈ zs → z ≤ foldr Z.max 0 zs.
Proof.
  induction zs as [|z' zs IH]; simpl; intros H.
  - by apply elem_of_nil in H.
  - apply elem_of_cons in H as [->|H]; [lia|]. specialize (IH H). lia.
Qed.

(** A traversal that ends on an instance of z-order 0 leaves in the finder
    the highest of what it held, 0, and the z-orders it went through. *)
Lemma traversal_highest (zs : list Z) (l : list InitialInstance)
    (f : HighestZOrderFinder) :
  getZOrder <$> l = zs ++ [0] →
  getHighestZOrder (foldl visitInstance f l)
  = Z.max (getHighestZOrder f) (foldr Z.max 0 zs).
Proof.
  revert l f. induction zs as [|z zs IH]; intros [|a l] f H; simplify_eq/=.
  - apply fmap_nil_inv in H0 as ->. simpl.
    destruct f as [m|]; unfold getHighestZOrder; simpl; lia.
  - rewrite (IH _ _ H0). pose proof (highest_nonneg zs).
    destruct f as [m|]; unfold getHighestZOrder; simpl; lia.
Qed.

Lemma maximumZOrder_highest (c : InitialInstancesContainer) (m : Z) :
  maximumZOrder c = Some m → foldr Z.max 0 (zOrders c) = Z.max 0 m.
Proof.
  unfold maximumZOrder. generalize (zOrders c) as zs.
  intros zs; revert m. induction zs as [|z zs IH]; intros m; simpl; [done|].
  destruct (foldr _ None zs) as [m'|] eqn:E; simpl; intros [= <-].
  - rewrite (IH m' eq_refl). lia.
  - destruct zs; [simpl; lia|done].
Qed.

End FinderFacts.

(** ** What adding an instance does *)

Lemma roundInteger_exact (n : Z) : Z.abs n ≤ 2 ^ 53 → Js.roundInteger n = n.
Proof.
  intros H. unfold Js.roundInteger.
  destruct (Z.abs n <? 2 ^ 53) eqn:E; [done|].
  apply Z.ltb_ge in E.
  assert (n = 2 ^ 53 ∨ n = - 2 ^ 53) as [-> | ->] by lia; reflexivity.
Qed.

Lemma addIntegers_one (h : Z) : 0 ≤ h → h < 2 ^ 53 → Js.addIntegers h 1 = h + 1.
Proof. intros H0 H. unfold Js.addIntegers. apply roundInteger_exact. lia. Qed.

Lemma highestAtAdd_nonneg (e : Editor) : 0 ≤ highestAtAdd e.
Proof.
  unfold highestAtAdd. pose proof (highest_nonneg (zOrders (initialInstances e))). lia.
Qed.

Section AddInstance.

Variable historyMaxDepth : nat.

Lemma falsyName_false (n : string) : n ≠ "" → falsyName (Some n) = false.
Proof. intros H. simpl. by apply String.eqb_neq. Qed.

Lemma zOrders_placed x y n c : zOrders (placed x y n c) = zOrders c ++ [0].
Proof.
  unfold placed, setY, setX, setObjectName.
  rewrite !zOrders_update by done. apply zOrders_insert.
Qed.

Lemma highest_placed x y n (e : Editor) :
  getHighestZOrder
    (iterateOverInstances visitInstance (placed x y n (initialInstances e))
       (zOrderFinder e))
  = highestAtAdd e.
Proof.
  unfold iterateOverInstances, highestAtAdd.
  apply traversal_highest. apply zOrders_placed.
Qed.

Lemma _onAddInstance_instances (x y : Js.Num) (objectName : option string) (e : Editor)
    (n : string) :
  newInstanceObjectName objectName e = Some n → n ≠ "" →
  initialInstances (_onAddInstance historyMaxDepth x y objectName e)
  = setZOrder (nextRef (initialInstances e)) (Js.addIntegers (highestAtAdd e) 1)
      (placed x y n (initialInstances e)).
Proof.
  intros Hn Hne. unfold _onAddInstance. rewrite Hn, (falsyName_false _ Hne).
  rewrite <- (highest_placed x y n e). reflexivity.
Qed.

Lemma _onAddInstance_added (x y : Js.Num) (objectName : option string) (e : Editor)
    (n : string) :
  newInstanceObjectName objectName e = Some n → n ≠ "" →
  ∃ i, lookupInstance (nextRef (initialInstances e))
         (initialInstances (_onAddInstance historyMaxDepth x y objectName e)) = Some i
       ∧ getObjectName i = n ∧ getX i = x ∧ getY i = y
       ∧ getZOrder i = Js.addIntegers (highestAtAdd e) 1.
Proof.
  intros Hn Hne. rewrite (_onAddInstance_instances x y objectName e n Hn Hne).
  unfold placed, setZOrder, setY, setX, setObjectName.
  rewrite !lookupInstance_update. unfold lookupInstance; simpl.
  destruct (findInstance_app_new (nextRef (initialInstances e)) defaultInstance
              (instances (initialInstances e))) as [i ->].
  simpl. eexists; split; [reflexivity|]. done.
Qed.

Lemma _onAddInstance_history (x y : Js.Num) (objectName : option string) (e : Editor)
    (n : string) :
  newInstanceObjectName objectName e = Some n → n ≠ "" →
  history (state (_onAddInstance historyMaxDepth x y objectName e))
  = History.saveToHistory historyMaxDepth (history (state e))
      (initialInstances (_onAddInstance historyMaxDepth x y objectName e)).
Proof.
  intros Hn Hne. unfold _onAddInstance. rewrite Hn, (falsyName_false _ Hne).
  reflexivity.
Qed.

End AddInstance.

(** ** The selection across undo, redo and deletion *)

Lemma undo_keeps_selection (e : Editor) :
  instancesSelection (undo e) = instancesSelection e.
Proof. unfold undo. by destruct (History.undo _ _). Qed.

Lemma redo_keeps_selection (e : Editor) :
  instancesSelection (redo e) = instancesSelection e.
Proof. unfold redo. by destruct (History.redo _ _). Qed.

(** C1, which the code does not meet. The claim is that after [undo()] or
    [redo()] the selection is cleared, so that [getSelectedInstances()] is
    empty. Run on the scene A, B with A selected and one move committed:
    [undo] restores the snapshot, the container now holds its instances under
    the references 2 and 3, and the selection still holds the reference 0 it
    held before, which no longer exists; [redo] leaves it there as well. *)
Theorem undo_redo_leave_selection :
  let moved := _onInstancesMoved 20 [0%nat] editorASelected in
  getSelectedInstances (instancesSelection moved) = [0%nat]
  ∧ getSelectedInstances (instancesSelection (undo moved)) = [0%nat]
  ∧ refs (initialInstances (undo moved)) = [2%nat; 3%nat]
  ∧ lookupInstance 0%nat (initialInstances (undo moved)) = None
  ∧ getSelectedInstances (instancesSelection (redo (undo moved))) = [0%nat].
Proof. vm_compute. done. Qed.

Lemma deleteSelection_instances (depth : nat) (e : Editor) :
  initialInstances (deleteSelection depth e)
  = foldl (λ c r, removeInstance r c) (initialInstances e)
      (getSelectedInstances (instancesSelection e)).
Proof. reflexivity. Qed.

Lemma deleteSelection_history (depth : nat) (e : Editor) :
  history (state (deleteSelection depth e))
  = History.saveToHistory depth (history (state e))
      (initialInstances (deleteSelection depth e)).
Proof. reflexivity. Qed.

Lemma capped_length (depth : nat) (entries : list HistoryEntry) :
  length (History.capped depth entries) = Nat.min depth (length entries).
Proof. unfold History.capped. rewrite length_drop. lia. Qed.

(** C2 as stated fails: on the freshly opened editor nothing is selected, and
    [deleteSelection] takes [past] from length 0 to length 1. *)
Lemma deleteSelection_empty_counterexample :
  getSelectedInstances (instancesSelection editorAB) = []
  ∧ length (past (history (state editorAB))) = 0%nat
  ∧ length (past (history (state (deleteSelection 20 editorAB)))) = 1%nat
  ∧ history (state (deleteSelection 20 editorAB)) ≠ history (state editorAB).
Proof. vm_compute. repeat split; done. Qed.

(** C2, amended. For every state in which the selection is empty,
    [deleteSelection] leaves the scene graph unchanged and the selection
    empty, and it still commits to the history once: the new history is
    [saveToHistory] of the old one, so the previous present is pushed onto
    [past], whose length becomes the smaller of the cap and the old length
    plus one, and [future] is emptied. *)
Theorem deleteSelection_empty_still_commits (depth : nat) (e : Editor) :
  getSelectedInstances (instancesSelection e) = [] →
  initialInstances (deleteSelection depth e) = initialInstances e
  ∧ getSelectedInstances (instancesSelection (deleteSelection depth e)) = []
  ∧ history (state (deleteSelection depth e))
    = History.saveToHistory depth (history (state e)) (initialInstances e)
  ∧ length (past (history (state (deleteSelection depth e))))
    = Nat.min depth (S (length (past (history (state e)))))
  ∧ future (history (state (deleteSelection depth e))) = [].
Proof.
  intros Hsel.
  assert (Hc : initialInstances (deleteSelection depth e) = initialInstances e).
  { rewrite deleteSelection_instances, Hsel. reflexivity. }
  split; [exact Hc|]. split; [reflexivity|].
  rewrite deleteSelection_history, Hc. split; [reflexivity|].
  split; [|reflexivity]. simpl.
  rewrite capped_length, length_app. simpl. f_equal. lia.
Qed.

Lemma deleteSelection_empty_still_commits_witness :
  initialInstances (deleteSelection 20 editorAB) = initialInstances editorAB
  ∧ getSelectedInstances (instancesSelection (deleteSelection 20 editorAB)) = []
  ∧ history (state (deleteSelection 20 editorAB))
    = History.saveToHistory 20 (history (state editorAB)) (initialInstances editorAB)
  ∧ length (past (history (state (deleteSelection 20 editorAB))))
    = Nat.min 20 (S (length (past (history (state editorAB)))))
  ∧ future (history (state (deleteSelection 20 editorAB))) = [].
Proof. apply (deleteSelection_empty_still_commits 20 editorAB). reflexivity. Defined.

(** C5. For every non-empty selection, [deleteSelection] removes every
    selected instance from the scene graph, keeping the others, and clears
    the selection in the same step: afterwards no deleted instance is in the
    graph or among the selected instances, which are none. *)
Theorem deleteSelection_removes_selected (depth : nat) (e : Editor) :
  getSelectedInstances (instancesSelection e) ≠ [] →
  (∀ r, r ∈ getSelectedInstances (instancesSelection e) →
        (r ∉ refs (initialInstances (deleteSelection depth e)))
        ∧ (r ∉ getSelectedInstances (instancesSelection (deleteSelection depth e))))
  ∧ getSelectedInstances (instancesSelection (deleteSelection depth e)) = []
  ∧ (∀ p, p ∈ instances (initialInstances (deleteSelection depth e))
          ↔ (p ∈ instances (initialInstances e)
             ∧ p.1 ∉ getSelectedInstances (instancesSelection e))).
Proof.
  intros _. split; [|split; [reflexivity|]].
  - intros r Hr. split; [|apply not_elem_of_nil].
    rewrite deleteSelection_instances. unfold refs.
    intros [p [-> Hp]]%list_elem_of_fmap.
    apply elem_of_remove_all in Hp as [_ Hp]. by apply Hp.
  - intros p. rewrite deleteSelection_instances. apply elem_of_remove_all.
Qed.

Lemma deleteSelection_removes_selected_witness :
  (∀ r, r ∈ getSelectedInstances (instancesSelection editorASelected) →
        (r ∉ refs (initialInstances (deleteSelection 20 editorASelected)))
        ∧ (r ∉ getSelectedInstances
                 (instancesSelection (deleteSelection 20 editorASelected))))
  ∧ getSelectedInstances (instancesSelection (deleteSelection 20 editorASelected)) = []
  ∧ (∀ p, p ∈ instances (initialInstances (deleteSelection 20 editorASelected))
          ↔ (p ∈ instances (initialInstances editorASelected)
             ∧ p.1 ∉ getSelectedInstances (instancesSelection editorASelected))).
Proof. apply (deleteSelection_removes_selected 20 editorASelected). discriminate. Defined.

(** ** Layer removal and property edits *)

Lemma removeLayer_history (layerName : string) (d : Disposition) (e : Editor) :
  ∃ e', removeLayer layerName d e = Some e'
        ∧ history (state e') = history (state e)
        ∧ initialInstances e'
          = match d with
            | DeleteInstances => removeAllInstancesOnLayer layerName (initialInstances e)
            | MoveToLayer l => moveInstancesToLayer layerName l (initialInstances e)
            end.
Proof. eexists. split; [reflexivity|]. by destruct d. Qed.

(** C3, which the code does not meet. The claim is that a layer removal, with
    either disposition, pushes exactly one history commit. Run on the scene A,
    B on layer L1: with [DeleteInstances] both instances leave the graph, with
    [MoveToLayer] both are reassigned, and in both cases the history is the
    one the editor was opened with: [past] is still empty and [present] still
    is the snapshot taken before the removal. *)
Theorem removeLayer_makes_no_commit :
  (∃ e', removeLayer "L1" DeleteInstances editorAB = Some e'
         ∧ instances (initialInstances e') = []
         ∧ history (state e') = history (state editorAB)
         ∧ past (history (state e')) = []
         ∧ present (history (state e')) = snapshot sceneAB)
  ∧ (∃ e', removeLayer "L1" (MoveToLayer "L2") editorAB = Some e'
           ∧ getLayer <$> snapshot (initialInstances e') = ["L2"; "L2"]
           ∧ history (state e') = history (state editorAB)
           ∧ past (history (state e')) = []
           ∧ present (history (state e')) = snapshot sceneAB).
Proof. split; eexists; (split; [reflexivity|]); vm_compute; done. Qed.

Lemma _onInstancesModified_history (rs : list InstanceRef) (e : Editor) :
  history (state (_onInstancesModified rs e)) = history (state e).
Proof. reflexivity. Qed.

(** C7, which the code does not meet. The claim is that a property edit
    commits to the history. Run on the scene A, B with A selected, after the
    properties panel has written a new x through A's reference:
    [_onInstancesModified] asks for a re-render and nothing else; [past] is
    still empty and [present] is the snapshot from before the edit, which
    differs from the graph. *)
Theorem _onInstancesModified_makes_no_commit :
  let edited :=
    withInstances (setX 0%nat 99 (initialInstances editorASelected)) editorASelected in
  history (state (_onInstancesModified [0%nat] edited)) = history (state editorAB)
  ∧ past (history (state (_onInstancesModified [0%nat] edited))) = []
  ∧ present (history (state (_onInstancesModified [0%nat] edited)))
    ≠ snapshot (initialInstances (_onInstancesModified [0%nat] edited))
  ∧ effects (_onInstancesModified [0%nat] edited) = effects edited ++ [ForceUpdate].
Proof. vm_compute. repeat split; try done. Qed.

(** ** Adding an instance *)

Lemma falsyName_inv (name : option string) :
  falsyName name = false → ∃ n, name = Some n ∧ n ≠ "".
Proof.
  destruct name as [n|]; simpl; [|discriminate].
  intros H. exists n. split; [done|]. by apply String.eqb_neq.
Qed.

(** C4 as stated fails, in three ways. On a scene whose only instance has
    z-order -5 the new instance gets z-order 1, not -4: it is inserted with
    the default z-order 0 before the traversal and is counted in the maximum.
    On the scene A (1), B (3), after two instances were added at z-orders
    4 and 5 and both deleted, the next one gets z-order 5, not 4: the
    component's finder still holds the 4 it saw on the second traversal. And
    on a scene whose only instance has z-order [2 ^ 53] the new instance gets
    [2 ^ 53] again, which is neither the maximum plus 1 nor strictly greater:
    the sum is one of JavaScript numbers and [2 ^ 53 + 1] is not one. *)
Lemma addInstance_zOrder_counterexample :
  (let e := componentDidMount (mount gridOff sceneBelow) in
   maximumZOrder (initialInstances e) = Some (-5)
   ∧ getZOrder <$> lookupInstance (nextRef (initialInstances e))
                     (initialInstances (_onAddInstance 20 7 8 (Some "Hero") e))
     = Some 1
   ∧ (1 ≠ -5 + 1))
  ∧ (let e := deleteSelection 20
                (_onSelectInstances [2%nat; 3%nat] None
                   (_onAddInstance 20 9 9 (Some "Hero")
                      (_onAddInstance 20 7 8 (Some "Hero") editorAB))) in
     maximumZOrder (initialInstances e) = Some 3
     ∧ getZOrder <$> lookupInstance (nextRef (initialInstances e))
                       (initialInstances (_onAddInstance 20 7 8 (Some "Hero") e))
       = Some 5
     ∧ (5 ≠ 3 + 1))
  ∧ (let e := componentDidMount (mount gridOff sceneAtLimit) in
     maximumZOrder (initialInstances e) = Some (2 ^ 53)
     ∧ getZOrder <$> lookupInstance (nextRef (initialInstances e))
                       (initialInstances (_onAddInstance 20 7 8 (Some "Hero") e))
       = Some (2 ^ 53)
     ∧ ¬ (2 ^ 53 < 2 ^ 53)
     ∧ (2 ^ 53 ≠ 2 ^ 53 + 1)).
Proof. vm_compute. repeat split; done. Qed.

(** C4, amended. For every scene graph and every successful addInstance in
    which [highestAtAdd] is below [2 ^ 53], the new instance is assigned
    z-order [highestAtAdd + 1], where [highestAtAdd] is the highest of 0 (the
    z-order the instance is inserted with), the z-orders of all pre-existing
    instances of the whole graph, and what the component's finder holds from
    earlier traversals. Hence its z-order is positive and strictly greater
    than every pre-existing instance's z-order, regardless of layer; and it
    is the maximum pre-existing z-order plus 1 whenever that maximum is not
    negative and the finder holds nothing above it. The bound is where the
    sum of JavaScript numbers that the code takes is still exact. *)
Theorem _onAddInstance_zOrder (depth : nat) (x y : Js.Num) (objectName : option string)
    (e : Editor) :
  falsyName (newInstanceObjectName objectName e) = false →
  highestAtAdd e < 2 ^ 53 →
  ∃ i, lookupInstance (nextRef (initialInstances e))
         (initialInstances (_onAddInstance depth x y objectName e)) = Some i
       ∧ getZOrder i = highestAtAdd e + 1
       ∧ 0 < getZOrder i
       ∧ (∀ p, p ∈ instances (initialInstances e) → getZOrder p.2 < getZOrder i)
       ∧ (∀ m, maximumZOrder (initialInstances e) = Some m →
               0 ≤ m → getHighestZOrder (zOrderFinder e) ≤ m →
               getZOrder i = m + 1).
Proof.
  intros (n & Hn & Hne)%falsyName_inv Hbound.
  destruct (_onAddInstance_added depth x y objectName e n Hn Hne)
    as (i & Hi & _ & _ & _ & Hz).
  rewrite (addIntegers_one _ (highestAtAdd_nonneg e) Hbound) in Hz.
  exists i. split; [exact Hi|]. split; [exact Hz|]. rewrite Hz.
  pose proof (highest_nonneg (zOrders (initialInstances e))) as H0.
  unfold highestAtAdd. repeat split.
  - lia.
  - intros p Hp.
    assert (getZOrder p.2 ≤ foldr Z.max 0 (zOrders (initialInstances e))); [|lia].
    apply highest_upper_bound. unfold zOrders, snapshot.
    apply list_elem_of_fmap. exists p.2. split; [done|].
    apply list_elem_of_fmap. by exists p.
  - intros m Hm Hpos Hf. rewrite (maximumZOrder_highest _ _ Hm). lia.
Qed.

Lemma _onAddInstance_zOrder_witness :
  ∃ i, lookupInstance (nextRef (initialInstances editorAB))
         (initialInstances (_onAddInstance 20 7 8 (Some "Hero") editorAB)) = Some i
       ∧ getZOrder i = highestAtAdd editorAB + 1
       ∧ 0 < getZOrder i
       ∧ (∀ p, p ∈ instances (initialInstances editorAB) → getZOrder p.2 < getZOrder i)
       ∧ (∀ m, maximumZOrder (initialInstances editorAB) = Some m →
               0 ≤ m → getHighestZOrder (zOrderFinder editorAB) ≤ m →
               getZOrder i = m + 1).
Proof.
  apply (_onAddInstance_zOrder 20 7 8 (Some "Hero") editorAB); reflexivity.
Defined.

(** The scenario of the z-order law: with A (1) and B (3) in place, the new
    instance gets z-order 4. *)
Example addInstance_scenario :
  lookupInstance 2%nat (initialInstances (_onAddInstance 20 7 8 (Some "C") editorAB))
  = Some {| getObjectName := "C"; getX := 7; getY := 8; getZOrder := 4; getLayer := "" |}.
Proof. reflexivity. Qed.

(** A position between two pixels is stored as it is given: 7.5 is 15 halves. *)
Example addInstance_fractional_position :
  getX <$> lookupInstance 2%nat
             (initialInstances
                (_onAddInstance 20 (Js.Finite false 15 (-1)) (Js.Finite true 1 (-2))
                   (Some "C") editorAB))
  = Some (Js.Finite false 15 (-1)).
Proof. reflexivity. Qed.

(** C6. For every addInstance intent whose effective object name is empty or
    absent, [_onAddInstance] returns at once: the component is left exactly
    as it was, so no instance is created, the history gets no commit, and
    nothing is raised. *)
Theorem _onAddInstance_no_object_chosen (depth : nat) (x y : Js.Num)
    (objectName : option string) (e : Editor) :
  falsyName (newInstanceObjectName objectName e) = true →
  _onAddInstance depth x y objectName e = e.
Proof. intros H. unfold _onAddInstance. by rewrite H. Qed.

Lemma _onAddInstance_no_object_chosen_witness :
  _onAddInstance 20 7 8 (Some "") editorASelected = editorASelected.
Proof. apply (_onAddInstance_no_object_chosen 20 7 8 (Some "") editorASelected). reflexivity. Defined.



(** ** The view settings *)

(** C8. Toggling the window mask, toggling the grid (and with it the snap),
    and applying new settings each leave the history as it was: [past],
    [present] and [future] are untouched, and so are the scene graph and the
    selection. *)
Theorem uiSettings_never_historized (e : Editor) (newSettings : UiSettings) :
  (history (state (toggleWindowMask e)) = history (state e)
   ∧ initialInstances (toggleWindowMask e) = initialInstances e
   ∧ instancesSelection (toggleWindowMask e) = instancesSelection e)
  ∧ (history (state (toggleGrid e)) = history (state e)
     ∧ initialInstances (toggleGrid e) = initialInstances e
     ∧ instancesSelection (toggleGrid e) = instancesSelection e)
  ∧ (history (state (setUiSettings newSettings e)) = history (state e)
     ∧ initialInstances (setUiSettings newSettings e) = initialInstances e
     ∧ instancesSelection (setUiSettings newSettings e) = instancesSelection e).
Proof. repeat split. Qed.

(** C10. After [toggleGrid], [grid] and [snap] both hold the negation of what
    [grid] held before, whatever [snap] held; every other setting is kept. *)
Theorem toggleGrid_grid_and_snap (e : Editor) :
  getUiSettings (toggleGrid e) !! "grid"
  = Some (Js.Bool (negb (Js.truthy (Js.get (getUiSettings e) "grid"))))
  ∧ getUiSettings (toggleGrid e) !! "snap"
    = Some (Js.Bool (negb (Js.truthy (Js.get (getUiSettings e) "grid"))))
  ∧ (∀ k, k ≠ "grid" → k ≠ "snap" →
          getUiSettings (toggleGrid e) !! k = getUiSettings e !! k).
Proof.
  unfold getUiSettings, toggleGrid; simpl. repeat split.
  - rewrite lookup_insert_ne by done. by rewrite lookup_insert_eq.
  - by rewrite lookup_insert_eq.
  - intros k Hg Hs. by rewrite !lookup_insert_ne.
Qed.

(** With the grid off and the snap on, one toggle turns both on; a second
    one turns both off. *)
Example toggleGrid_scenario :
  Js.get (getUiSettings (toggleGrid editorAB)) "grid" = Js.Bool true
  ∧ Js.get (getUiSettings (toggleGrid editorAB)) "snap" = Js.Bool true
  ∧ Js.get (getUiSettings (toggleGrid (toggleGrid editorAB))) "snap" = Js.Bool false.
Proof. vm_compute. done. Qed.

(** ** The panels' toggles *)

Lemma not_not (v : Js.Value) : Js.not (Js.not v) = Js.Bool (Js.truthy v).
Proof. unfold Js.not. simpl. by rewrite negb_involutive. Qed.

(** Each of the three list toggles undoes itself when applied twice, and any
    two of them can be applied in either order. *)
Theorem list_toggles_involutive_commute (e : Editor) :
  (toggleObjectsList (toggleObjectsList e) = e
   ∧ toggleInstancesList (toggleInstancesList e) = e
   ∧ toggleLayersList (toggleLayersList e) = e)
  ∧ (toggleObjectsList (toggleInstancesList e) = toggleInstancesList (toggleObjectsList e)
     ∧ toggleObjectsList (toggleLayersList e) = toggleLayersList (toggleObjectsList e)
     ∧ toggleInstancesList (toggleLayersList e) = toggleLayersList (toggleInstancesList e)).
Proof.
  destruct e as [[o i g l d c r v n u h] sel f cont eff].
  unfold toggleObjectsList, toggleInstancesList, toggleLayersList, setState, withListsOpen.
  simpl. rewrite !negb_involutive. done.
Qed.

(** After one [toggleWindowMask] the setting holds the negation of its
    truthiness, so an absent setting becomes [true], and every other setting
    is kept; after two it holds its truthiness as a boolean, every other
    setting being kept; and when it held a boolean to begin with, two toggles
    give the component back unchanged. *)
Theorem toggleWindowMask_twice (e : Editor) :
  getUiSettings (toggleWindowMask e) !! "windowMask"
  = Some (Js.Bool (negb (Js.truthy (Js.get (getUiSettings e) "windowMask"))))
  ∧ (∀ k, k ≠ "windowMask" →
          getUiSettings (toggleWindowMask e) !! k = getUiSettings e !! k)
  ∧ getUiSettings (toggleWindowMask (toggleWindowMask e)) !! "windowMask"
    = Some (Js.Bool (Js.truthy (Js.get (getUiSettings e) "windowMask")))
  ∧ (∀ k, k ≠ "windowMask" →
          getUiSettings (toggleWindowMask (toggleWindowMask e)) !! k
          = getUiSettings e !! k)
  ∧ (∀ b, getUiSettings e !! "windowMask" = Some (Js.Bool b) →
          toggleWindowMask (toggleWindowMask e) = e).
Proof.
  destruct e as [[o i g l d c r v n u h] sel f cont eff].
  unfold getUiSettings, toggleWindowMask, setState, withUiSettings; simpl.
  split; [by rewrite lookup_insert_eq|].
  split.
  { intros k Hk. by rewrite lookup_insert_ne. }
  split.
  { rewrite lookup_insert_eq. unfold Js.get at 1. rewrite lookup_insert_eq. simpl.
    by rewrite not_not. }
  split.
  { intros k Hk. by rewrite !lookup_insert_ne. }
  intros b Hb. unfold Js.get at 1. rewrite lookup_insert_eq. simpl.
  rewrite not_not. unfold Js.get. rewrite Hb. simpl.
  rewrite insert_insert_eq, (insert_id _ _ _ Hb). done.
Qed.

Lemma toggleWindowMask_twice_witness :
  toggleWindowMask (toggleWindowMask editorAB) = editorAB.
Proof.
  apply (toggleWindowMask_twice editorAB) with (b := false). reflexivity.
Defined.

(** Two [toggleGrid] in a row bring [grid] back to its truthiness, as a
    boolean, and leave [snap] equal to it: what [snap] held before the first
    toggle is not restored. *)
Theorem toggleGrid_twice (e : Editor) :
  getUiSettings (toggleGrid (toggleGrid e)) !! "grid"
  = Some (Js.Bool (Js.truthy (Js.get (getUiSettings e) "grid")))
  ∧ getUiSettings (toggleGrid (toggleGrid e)) !! "snap"
    = Some (Js.Bool (Js.truthy (Js.get (getUiSettings e) "grid")))
  ∧ (∀ k, k ≠ "grid" → k ≠ "snap" →
          getUiSettings (toggleGrid (toggleGrid e)) !! k = getUiSettings e !! k).
Proof.
  destruct e as [[o i g l d c r v n u h] sel f cont eff].
  unfold getUiSettings, toggleGrid, setState, withUiSettings; simpl.
  assert (Hg : Js.get (<["snap":=Js.not (Js.get u "grid")]>
                         (<["grid":=Js.not (Js.get u "grid")]> u)) "grid"
               = Js.not (Js.get u "grid")).
  { unfold Js.get at 1. rewrite lookup_insert_ne by done.
    by rewrite lookup_insert_eq. }
  rewrite Hg, not_not. repeat split.
  - rewrite lookup_insert_ne by done. by rewrite lookup_insert_eq.
  - by rewrite lookup_insert_eq.
  - intros k Hk1 Hk2. by rewrite !lookup_insert_ne.
Qed.

(** [setUiSettings] merges: a key of the new settings takes the new value, any
    other key keeps its old one. Applying no settings changes nothing,
    applying the same settings twice is applying them once, and applying [a]
    then [b] is applying the two merged, [b] winning. *)
Theorem setUiSettings_merge (a b : UiSettings) (e : Editor) :
  (∀ k, getUiSettings (setUiSettings a e) !! k
        = match a !! k with
          | Some v => Some v
          | None => getUiSettings e !! k
          end)
  ∧ setUiSettings ∅ e = e
  ∧ setUiSettings a (setUiSettings a e) = setUiSettings a e
  ∧ setUiSettings b (setUiSettings a e) = setUiSettings (Js.spread a b) e.
Proof.
  destruct e as [[o i g l d c r v n u h] sel f cont eff].
  unfold getUiSettings, setUiSettings, setState, withUiSettings, Js.spread; simpl.
  repeat split.
  - intros k. rewrite lookup_union. by destruct (a !! k), (u !! k).
  - by rewrite (left_id_L ∅ (∪)).
  - by rewrite (assoc_L (∪)), (idemp_L (∪)).
  - by rewrite (assoc_L (∪)).
Qed.

(** ** Selecting from the instances list *)

Lemma select_all_spec (rs : list InstanceRef) (s : InstancesSelection) :
  NoDup s →
  NoDup (foldl (λ s r, selectInstance r s) s rs)
  ∧ (∀ r, r ∈ foldl (λ s r, selectInstance r s) s rs ↔ (r ∈ s ∨ r ∈ rs))
  ∧ (NoDup (s ++ rs) → foldl (λ s r, selectInstance r s) s rs = s ++ rs).
Proof.
  revert s. induction rs as [|r rs IH]; intros s Hs; simpl.
  - split; [done|]. split; [|by rewrite app_nil_r].
    intros r. rewrite elem_of_nil. split; [by left|by intros [?|[]]].
  - assert (Hs' : NoDup (selectInstance r s)).
    { unfold selectInstance. case_bool_decide; [done|].
      apply NoDup_app. split; [done|]. split; [|apply NoDup_singleton].
      intros x Hx ->%list_elem_of_singleton. done. }
    destruct (IH _ Hs') as (Hnd & Hin & Heq). split; [done|]. split.
    + intros x. rewrite Hin, elem_of_cons. unfold selectInstance.
      case_bool_decide as Hr.
      * split; [intros [?|?]; auto|]. intros [?|[->|?]]; auto.
      * rewrite elem_of_app, list_elem_of_singleton.
        split; [intros [[?|?]|?]; auto|intros [?|[?|?]]; auto].
    + intros Hall. assert (r ∉ s) as Hr.
      { apply NoDup_app in Hall as (_ & Hd & _). intros Hin'.
        apply (Hd r Hin'). apply elem_of_cons. by left. }
      assert (selectInstance r s = s ++ [r]) as Hsel.
      { unfold selectInstance. by rewrite bool_decide_eq_false_2. }
      rewrite Hsel in Heq |- *. rewrite Heq; [by rewrite <- app_assoc|].
      by rewrite <- app_assoc.
Qed.

(** [_onSelectInstances] replaces the selection: whatever was selected
    before, the selection afterwards has no duplicate and holds exactly the
    given instances, in the given order when they are given once each; the
    scene graph and the history are not touched. *)
Theorem _onSelectInstances_replaces (rs : list InstanceRef) (centerView : option bool)
    (e : Editor) :
  NoDup (getSelectedInstances (instancesSelection (_onSelectInstances rs centerView e)))
  ∧ (∀ r, r ∈ getSelectedInstances
                (instancesSelection (_onSelectInstances rs centerView e))
          ↔ r ∈ rs)
  ∧ (NoDup rs →
     getSelectedInstances (instancesSelection (_onSelectInstances rs centerView e)) = rs)
  ∧ initialInstances (_onSelectInstances rs centerView e) = initialInstances e
  ∧ state (_onSelectInstances rs centerView e) = state e.
Proof.
  assert (Hsel : instancesSelection (_onSelectInstances rs centerView e)
                 = foldl (λ s r, selectInstance r s) [] rs).
  { unfold _onSelectInstances. by destruct (default true centerView). }
  rewrite Hsel. unfold getSelectedInstances.
  destruct (select_all_spec rs [] (NoDup_nil_2)) as (Hnd & Hin & Heq).
  split; [done|]. split.
  { intros r. rewrite Hin, elem_of_nil. split; [by intros [[]|?]|by right]. }
  split; [exact Heq|].
  unfold _onSelectInstances. by destruct (default true centerView).
Qed.

Lemma _onSelectInstances_replaces_witness :
  getSelectedInstances
    (instancesSelection (_onSelectInstances [1%nat; 0%nat] None editorASelected))
  = [1%nat; 0%nat].
Proof.
  apply (_onSelectInstances_replaces [1%nat; 0%nat] None editorASelected).
  apply (bool_decide_unpack (NoDup [1%nat; 0%nat])). exact I.
Defined.

(** ** Placing objects *)

Lemma update_fresh (r : InstanceRef) (f : InitialInstance → InitialInstance)
    (l : list (InstanceRef * InitialInstance)) (i : InitialInstance) :
  r ∉ l.*1 →
  (λ p : InstanceRef * InitialInstance, if Nat.eqb p.1 r then (p.1, f p.2) else p)
    <$> (l ++ [(r, i)])
  = l ++ [(r, f i)].
Proof.
  intros Hr. rewrite fmap_app. simpl. rewrite Nat.eqb_refl. f_equal.
  induction l as [|[r' i'] l IH]; simpl; [done|].
  apply not_elem_of_cons in Hr as [Hne Hr]. simpl in Hne.
  f_equal; [|by apply IH].
  destruct (Nat.eqb r' r) eqn:E; [|done]. apply Nat.eqb_eq in E. congruence.
Qed.

Lemma updateInstance_fresh (r : InstanceRef) (f : InitialInstance → InitialInstance)
    (l : list (InstanceRef * InitialInstance)) (i : InitialInstance) (n : InstanceRef) :
  r ∉ l.*1 →
  updateInstance r f {| instances := l ++ [(r, i)]; nextRef := n |}
  = {| instances := l ++ [(r, f i)]; nextRef := n |}.
Proof. intros Hr. unfold updateInstance; simpl. by rewrite update_fresh. Qed.





(** When a name is there to place and the container has never handed out its
    next reference, [_onAddInstance] appends exactly one instance, with that
    name, the given position, for z-order the sum that JavaScript makes of
    the highest and 1, which is one above the highest as long as the highest
    is below [2 ^ 53], and the default layer; the instances already there are
    kept as they are. The
    selection and the view settings are untouched, the object to place is
    forgotten, the history gets the commit of the new content, and the
    toolbar is told that nothing can be redone. *)
Theorem _onAddInstance_appends (depth : nat) (x y : Js.Num) (objectName : option string)
    (e : Editor) :
  falsyName (newInstanceObjectName objectName e) = false →
  nextRef (initialInstances e) ∉ refs (initialInstances e) →
  ∃ n, newInstanceObjectName objectName e = Some n
       ∧ initialInstances (_onAddInstance depth x y objectName e)
         = {| instances :=
                instances (initialInstances e)
                ++ [(nextRef (initialInstances e),
                     {| getObjectName := n; getX := x; getY := y;
                        getZOrder := Js.addIntegers (highestAtAdd e) 1;
                        getLayer := "" |})];
              nextRef := S (nextRef (initialInstances e)) |}
       ∧ (highestAtAdd e < 2 ^ 53 →
          Js.addIntegers (highestAtAdd e) 1 = highestAtAdd e + 1)
       ∧ instancesSelection (_onAddInstance depth x y objectName e)
         = instancesSelection e
       ∧ getUiSettings (_onAddInstance depth x y objectName e) = getUiSettings e
       ∧ selectedObjectName (state (_onAddInstance depth x y objectName e)) = None
       ∧ history (state (_onAddInstance depth x y objectName e))
         = History.saveToHistory depth (history (state e))
             (initialInstances (_onAddInstance depth x y objectName e))
       ∧ effects (_onAddInstance depth x y objectName e)
         = effects e
           ++ [SetToolbar
                 (History.canUndo (history (state (_onAddInstance depth x y objectName e))))
                 false].
Proof.
  intros (n & Hn & Hne)%falsyName_inv Hfresh. exists n. split; [exact Hn|].
  split.
  { rewrite (_onAddInstance_instances depth x y objectName e n Hn Hne).
    unfold refs in Hfresh.
    unfold placed, setZOrder, setY, setX, setObjectName, insertNewInitialInstance;
      cbn [snd].
    by rewrite !updateInstance_fresh. }
  split; [apply addIntegers_one, highestAtAdd_nonneg|].
  split; [|split; [|split; [|split]]].
  1-3, 5: unfold _onAddInstance; rewrite Hn, (falsyName_false _ Hne); reflexivity.
  apply (_onAddInstance_history depth x y objectName e n Hn Hne).
Qed.

Lemma _onAddInstance_appends_witness :
  ∃ n, newInstanceObjectName (Some "Hero") editorAB = Some n
       ∧ initialInstances (_onAddInstance 20 7 8 (Some "Hero") editorAB)
         = {| instances :=
                instances (initialInstances editorAB)
                ++ [(nextRef (initialInstances editorAB),
                     {| getObjectName := n; getX := 7; getY := 8;
                        getZOrder := Js.addIntegers (highestAtAdd editorAB) 1;
                        getLayer := "" |})];
              nextRef := S (nextRef (initialInstances editorAB)) |}
       ∧ (highestAtAdd editorAB < 2 ^ 53 →
          Js.addIntegers (highestAtAdd editorAB) 1 = highestAtAdd editorAB + 1)
       ∧ instancesSelection (_onAddInstance 20 7 8 (Some "Hero") editorAB)
         = instancesSelection editorAB
       ∧ getUiSettings (_onAddInstance 20 7 8 (Some "Hero") editorAB)
         = getUiSettings editorAB
       ∧ selectedObjectName (state (_onAddInstance 20 7 8 (Some "Hero") editorAB)) = None
       ∧ history (state (_onAddInstance 20 7 8 (Some "Hero") editorAB))
         = History.saveToHistory 20 (history (state editorAB))
             (initialInstances (_onAddInstance 20 7 8 (Some "Hero") editorAB))
       ∧ effects (_onAddInstance 20 7 8 (Some "Hero") editorAB)
         = effects editorAB
           ++ [SetToolbar
                 (History.canUndo
                    (history (state (_onAddInstance 20 7 8 (Some "Hero") editorAB))))
                 false].
Proof.
  apply (_onAddInstance_appends 20 7 8 (Some "Hero") editorAB); [reflexivity|].
  apply (bool_decide_unpack (2%nat ∉ [0%nat; 1%nat])). exact I.
Defined.

Lemma _onAddInstance_forgets_object (depth : nat) (x y : Js.Num) (objectName : option string)
    (e : Editor) :
  falsyName (newInstanceObjectName objectName e) = false →
  selectedObjectName (state (_onAddInstance depth x y objectName e)) = None.
Proof.
  intros H. unfold _onAddInstance. rewrite H. reflexivity.
Qed.

(** An object picked in the objects list is placed once: after an instance
    was added, the bar that invites to click is hidden, and a click on the
    scene, which gives no name of its own, adds nothing more. *)
Theorem _onAddInstance_places_once (depth : nat) (x y x' y' : Js.Num)
    (objectName : option string) (e : Editor) :
  falsyName (newInstanceObjectName objectName e) = false →
  infoBarShown (_onAddInstance depth x y objectName e) = false
  ∧ _onAddInstance depth x' y' None (_onAddInstance depth x y objectName e)
    = _onAddInstance depth x y objectName e
  ∧ _onAddInstance depth x' y' (Some "") (_onAddInstance depth x y objectName e)
    = _onAddInstance depth x y objectName e.
Proof.
  intros H. pose proof (_onAddInstance_forgets_object depth x y objectName e H) as Hn.
  unfold infoBarShown. rewrite Hn. split; [reflexivity|].
  split; unfold _onAddInstance at 1, newInstanceObjectName; simpl; by rewrite Hn.
Qed.

Lemma _onAddInstance_places_once_witness :
  infoBarShown (_onAddInstance 20 7 8 None (_onObjectSelected (Some "Tree") editorAB))
  = false
  ∧ _onAddInstance 20 9 9 None
      (_onAddInstance 20 7 8 None (_onObjectSelected (Some "Tree") editorAB))
    = _onAddInstance 20 7 8 None (_onObjectSelected (Some "Tree") editorAB)
  ∧ _onAddInstance 20 9 9 (Some "")
      (_onAddInstance 20 7 8 None (_onObjectSelected (Some "Tree") editorAB))
    = _onAddInstance 20 7 8 None (_onObjectSelected (Some "Tree") editorAB).
Proof.
  apply (_onAddInstance_places_once 20 7 8 9 9 None
           (_onObjectSelected (Some "Tree") editorAB)).
  reflexivity.
Defined.

(** The bar "Touch/click on the scene to add the object" is shown exactly
    when a click on the scene adds an instance: shown, the click makes the
    container one instance longer; hidden, the click changes nothing. *)
Theorem infoBar_announces_click (depth : nat) (x y : Js.Num) (e : Editor) :
  (infoBarShown e = true →
   length (instances (initialInstances (_onAddInstance depth x y None e)))
   = S (length (instances (initialInstances e))))
  ∧ (infoBarShown e = false → _onAddInstance depth x y None e = e).
Proof.
  unfold infoBarShown. split; intros H.
  - apply negb_true_iff in H.
    assert (Hn : falsyName (newInstanceObjectName None e) = false) by exact H.
    destruct (falsyName_inv _ Hn) as (n & Hsome & Hne).
    rewrite (_onAddInstance_instances depth x y None e n Hsome Hne).
    unfold placed, setZOrder, setY, setX, setObjectName, updateInstance; simpl.
    rewrite !length_fmap, length_app. simpl. lia.
  - apply negb_false_iff in H. unfold _onAddInstance.
    assert (Hn : falsyName (newInstanceObjectName None e) = true) by exact H.
    by rewrite Hn.
Qed.

Lemma infoBar_announces_click_witness :
  length (instances (initialInstances
            (_onAddInstance 20 7 8 None (_onObjectSelected (Some "Tree") editorAB))))
  = S (length (instances (initialInstances (_onObjectSelected (Some "Tree") editorAB))))
  ∧ _onAddInstance 20 7 8 None editorAB = editorAB.
Proof.
  split.
  - apply (infoBar_announces_click 20 7 8 (_onObjectSelected (Some "Tree") editorAB)).
    reflexivity.
  - apply (infoBar_announces_click 20 7 8 editorAB). reflexivity.
Defined.




(** ** The history and the container, call after call *)

Lemma snapshot_restore (entry : HistoryEntry) (c : InitialInstancesContainer) :
  snapshot (restore entry c) = entry.
Proof. unfold snapshot, restore; simpl. apply snd_zip. by rewrite length_seq. Qed.

Lemma undo_inSync (e : Editor) : inSync e → inSync (undo e).
Proof.
  unfold inSync, undo, History.undo. intros H.
  destruct (last (past (history (state e)))) as [entry|]; simpl; [|exact H].
  by rewrite snapshot_restore.
Qed.

Lemma redo_inSync (e : Editor) : inSync e → inSync (redo e).
Proof.
  unfold inSync, redo, History.redo. intros H.
  destruct (future (history (state e))) as [|entry rest]; simpl; [exact H|].
  by rewrite snapshot_restore.
Qed.

Lemma _onAddInstance_inSync (depth : nat) (x y : Js.Num) (objectName : option string)
    (e : Editor) :
  inSync e → inSync (_onAddInstance depth x y objectName e).
Proof.
  intros H. unfold inSync.
  destruct (falsyName (newInstanceObjectName objectName e)) eqn:E.
  - unfold _onAddInstance. rewrite E. exact H.
  - destruct (falsyName_inv _ E) as (n & Hn & Hne).
    by rewrite (_onAddInstance_history depth x y objectName e n Hn Hne).
Qed.

Lemma handle_inSync (depth : nat) (i : Intent) (e : Editor) :
  writesWithoutCommit i = false → inSync e → inSync (handle depth i e).
Proof.
  intros Hi H. destruct i; simpl in *;
    try discriminate; try exact H; try reflexivity.
  - by apply undo_inSync.
  - by apply redo_inSync.
  - by apply _onAddInstance_inSync.
  - unfold _onSelectInstances. by destruct (default true centerView).
  - subst doRemove. unfold onClose.
    by destruct (onCloseLayerRemoveDialog (state e)).
Qed.

Lemma handle_commits (depth : nat) (i : Intent) (e : Editor) :
  alwaysCommits i = true → inSync (handle depth i e).
Proof. destruct i; simpl; try discriminate; reflexivity. Qed.

Lemma session_inSync (depth : nat) (intents : list Intent) (e : Editor) :
  Forall (λ i, writesWithoutCommit i = false) intents →
  inSync e → inSync (session depth intents e).
Proof.
  intros Hall. revert e.
  induction Hall as [|i intents Hi _ IH]; intros e He; simpl; [exact He|].
  apply IH. by apply handle_inSync.
Qed.

(** The present of the history is the content of the container at the end
    of every session that starts so and in which no view writes into the
    container and no layer removal is confirmed: every other call leaves
    both alone, commits the content, or restores the content from the entry
    that becomes the present. It is so again, from any state and after any
    calls and writes, once [onInstancesMoved] or [deleteSelection] has been
    called and no such write or confirmation has followed. *)
Theorem session_keeps_history_in_sync (depth : nat) (before after : list Intent)
    (i : Intent) (e : Editor) :
  Forall (λ i, writesWithoutCommit i = false) after →
  (inSync e → inSync (session depth after e))
  ∧ (alwaysCommits i = true → inSync (session depth (before ++ i :: after) e)).
Proof.
  intros Hall. split.
  - by apply session_inSync.
  - intros Hi. unfold session. rewrite foldl_app. simpl.
    apply (session_inSync depth after); [done|]. by apply handle_commits.
Qed.

Lemma session_keeps_history_in_sync_witness :
  inSync
    (session 20
       [ObjectSelected (Some "Tree"); AddInstance 7 8 None;
        SelectInstances [2%nat] None; InstancesMoved [2%nat]; ToggleGrid;
        Undo; Undo; Redo; RemoveLayer "L1"; CloseLayerRemoveDialog false None;
        InstancesModified [0%nat];
        SelectInstances [4%nat; 5%nat] (Some false); DeleteSelection; Undo]
       (mount gridOff sceneAB))
  ∧ inSync
      (session 20
         ([ViewWrites (setX 0%nat 99); InstancesModified [0%nat];
           RemoveLayer "L1"; CloseLayerRemoveDialog true None;
           ViewWrites (setY 1%nat 5)]
          ++ InstancesMoved [1%nat] :: [Undo; Redo; ToggleWindowMask])
         (mount gridOff sceneAB)).
Proof.
  split.
  - apply (session_keeps_history_in_sync 20 [] _ Undo); [repeat constructor|reflexivity].
  - apply (session_keeps_history_in_sync 20); [repeat constructor|reflexivity].
Defined.

(** A property typed in the panel and reported through [onInstancesModified]
    leaves the history behind the container. *)
Example panel_edit_leaves_history_behind :
  ¬ inSync (session 20 [ViewWrites (setX 0%nat 99); InstancesModified [0%nat]]
              (mount gridOff sceneAB)).
Proof. unfold inSync. vm_compute. discriminate. Qed.

Lemma take_last (A : Type) (l : list A) (x : A) :
  last l = Some x → take (length l - 1) l ++ [x] = l.
Proof.
  intros (l' & ->)%last_Some. rewrite length_app. simpl.
  replace (length l' + 1 - 1)%nat with (length l') by lia.
  by rewrite take_app_length.
Qed.

(** Undoing and then redoing, when there is something to undo, gives back the
    history as it was and a container whose content is the history's present;
    redoing and then undoing, when there is something to redo, does the same.
    The content comes back under new references. *)
Theorem undo_redo_round_trip (e : Editor) :
  (History.canUndo (history (state e)) = true →
   history (state (redo (undo e))) = history (state e)
   ∧ snapshot (initialInstances (redo (undo e))) = present (history (state e)))
  ∧ (History.canRedo (history (state e)) = true →
     history (state (undo (redo e))) = history (state e)
     ∧ snapshot (initialInstances (undo (redo e))) = present (history (state e))).
Proof.
  destruct e as [[o i g l d c r v n u [p pr fu]] sel f cont eff]. split.
  - unfold History.canUndo; simpl. intros Hp.
    destruct (last p) as [x|] eqn:Hl.
    2:{ apply last_None in Hl. by subst p. }
    unfold undo, History.undo; simpl. rewrite Hl.
    unfold redo, History.redo; simpl.
    rewrite snapshot_restore. by rewrite (take_last _ _ _ Hl).
  - unfold History.canRedo; simpl. intros Hf.
    destruct fu as [|x rest]; [done|].
    unfold redo, History.redo; simpl. unfold undo, History.undo; simpl.
    rewrite last_snoc. simpl. rewrite snapshot_restore.
    rewrite length_app. simpl.
    replace (length p + 1 - 1)%nat with (length p) by lia.
    by rewrite take_app_length.
Qed.

Lemma undo_redo_round_trip_witness :
  (history (state (redo (undo (_onInstancesMoved 20 [0%nat] editorAB))))
   = history (state (_onInstancesMoved 20 [0%nat] editorAB))
   ∧ snapshot (initialInstances (redo (undo (_onInstancesMoved 20 [0%nat] editorAB))))
     = present (history (state (_onInstancesMoved 20 [0%nat] editorAB))))
  ∧ (history (state (undo (redo (undo (_onInstancesMoved 20 [0%nat] editorAB)))))
     = history (state (undo (_onInstancesMoved 20 [0%nat] editorAB)))
     ∧ snapshot (initialInstances
                   (undo (redo (undo (_onInstancesMoved 20 [0%nat] editorAB)))))
       = present (history (state (undo (_onInstancesMoved 20 [0%nat] editorAB))))).
Proof.
  split.
  - apply (undo_redo_round_trip (_onInstancesMoved 20 [0%nat] editorAB)). reflexivity.
  - apply (undo_redo_round_trip (undo (_onInstancesMoved 20 [0%nat] editorAB))).
    reflexivity.
Defined.

(** With nothing to undo, [undo] leaves the state and the container as they
    are and still asks for the renderers to be remounted and the toolbar to be
    set; and so does [redo] with nothing to redo. *)
Theorem undo_redo_nothing_to_do (e : Editor) :
  (History.canUndo (history (state e)) = false →
   state (undo e) = state e
   ∧ initialInstances (undo e) = initialInstances e
   ∧ effects (undo e)
     = effects e ++ [ForceRemount;
                     SetToolbar false (History.canRedo (history (state e)))])
  ∧ (History.canRedo (history (state e)) = false →
     state (redo e) = state e
     ∧ initialInstances (redo e) = initialInstances e
     ∧ effects (redo e)
       = effects e ++ [ForceRemount;
                       SetToolbar (History.canUndo (history (state e))) false]).
Proof.
  destruct e as [[o i g l d c r v n u [p pr fu]] sel f cont eff].
  unfold History.canUndo, History.canRedo; simpl. split.
  - destruct p as [|x p]; [|done]. intros _.
    unfold undo, History.undo; simpl. by rewrite <- app_assoc.
  - destruct fu as [|x fu]; [|done]. intros _.
    unfold redo, History.redo; simpl. by rewrite <- app_assoc.
Qed.

Lemma undo_redo_nothing_to_do_witness :
  (state (undo editorAB) = state editorAB
   ∧ initialInstances (undo editorAB) = initialInstances editorAB
   ∧ effects (undo editorAB)
     = effects editorAB
       ++ [ForceRemount; SetToolbar false (History.canRedo (history (state editorAB)))])
  ∧ (state (redo editorAB) = state editorAB
     ∧ initialInstances (redo editorAB) = initialInstances editorAB
     ∧ effects (redo editorAB)
       = effects editorAB
         ++ [ForceRemount; SetToolbar (History.canUndo (history (state editorAB))) false]).
Proof.
  split.
  - apply (undo_redo_nothing_to_do editorAB). reflexivity.
  - apply (undo_redo_nothing_to_do editorAB). reflexivity.
Defined.

(** ** What the toolbar shows *)

Lemma toolbarShown_updateToolbar (e : Editor) :
  toolbarShown (_updateToolbar e)
  = Some (History.canUndo (history (state e)), History.canRedo (history (state e))).
Proof.
  unfold toolbarShown, _updateToolbar, emit; simpl.
  rewrite omap_app. simpl. by rewrite last_snoc.
Qed.

Lemma canUndo_saveToHistory (depth : nat) (h : HistoryState)
    (c : InitialInstancesContainer) :
  (0 < depth)%nat → History.canUndo (History.saveToHistory depth h c) = true.
Proof.
  intros Hd. unfold History.canUndo, History.saveToHistory; simpl.
  pose proof (capped_length depth (past h ++ [present h])) as Hl.
  rewrite length_app in Hl. simpl in Hl.
  destruct (History.capped depth (past h ++ [present h])); [simpl in Hl; lia|done].
Qed.

(** After an undo, a redo, an addition, a deletion or a selection from the
    instances list, the toolbar has been given the [canUndo] and [canRedo] of
    the history as it now is. *)
Theorem toolbar_follows_history (depth : nat) (x y : Js.Num) (objectName : option string)
    (rs : list InstanceRef) (centerView : option bool) (e : Editor) :
  let shows (e' : Editor) :=
    toolbarShown e'
    = Some (History.canUndo (history (state e')), History.canRedo (history (state e'))) in
  shows (undo e) ∧ shows (redo e)
  ∧ (falsyName (newInstanceObjectName objectName e) = false →
     shows (_onAddInstance depth x y objectName e))
  ∧ shows (deleteSelection depth e)
  ∧ shows (_onSelectInstances rs centerView e)
  ∧ shows (_onInstancesSelected rs e).
Proof.
  simpl. repeat split.
  - unfold undo. destruct (History.undo _ _). by rewrite toolbarShown_updateToolbar.
  - unfold redo. destruct (History.redo _ _). by rewrite toolbarShown_updateToolbar.
  - intros H. unfold _onAddInstance, insertNewInitialInstance. rewrite H.
    cbv beta iota zeta. by rewrite toolbarShown_updateToolbar.
  - unfold deleteSelection. by rewrite toolbarShown_updateToolbar.
  - unfold _onSelectInstances.
    destruct (default true centerView); by rewrite toolbarShown_updateToolbar.
  - unfold _onInstancesSelected. by rewrite toolbarShown_updateToolbar.
Qed.

Lemma toolbar_follows_history_witness :
  toolbarShown (_onAddInstance 20 7 8 (Some "Hero") editorAB)
  = Some (History.canUndo (history (state (_onAddInstance 20 7 8 (Some "Hero") editorAB))),
          History.canRedo (history (state (_onAddInstance 20 7 8 (Some "Hero") editorAB)))).
Proof.
  exact (proj1 (proj2 (proj2
           (toolbar_follows_history 20 7 8 (Some "Hero") [] None editorAB))) eq_refl).
Defined.

(** A move is committed without the toolbar being told: [_onInstancesMoved]
    makes no call at all, so with a history that keeps at least one entry the
    move can be undone while the toolbar still shows what it showed before;
    on the editor as opened, that undo is not possible. *)
Theorem _onInstancesMoved_leaves_toolbar (depth : nat) (rs : list InstanceRef)
    (e : Editor) :
  (0 < depth)%nat →
  effects (_onInstancesMoved depth rs e) = effects e
  ∧ toolbarShown (_onInstancesMoved depth rs e) = toolbarShown e
  ∧ History.canUndo (history (state (_onInstancesMoved depth rs e))) = true
  ∧ History.canRedo (history (state (_onInstancesMoved depth rs e))) = false.
Proof.
  intros Hd. split; [reflexivity|]. split; [reflexivity|]. split; [|reflexivity].
  by apply canUndo_saveToHistory.
Qed.

Lemma _onInstancesMoved_leaves_toolbar_witness :
  effects (_onInstancesMoved 20 [0%nat] editorAB) = effects editorAB
  ∧ toolbarShown (_onInstancesMoved 20 [0%nat] editorAB) = toolbarShown editorAB
  ∧ History.canUndo (history (state (_onInstancesMoved 20 [0%nat] editorAB))) = true
  ∧ History.canRedo (history (state (_onInstancesMoved 20 [0%nat] editorAB))) = false.
Proof. apply (_onInstancesMoved_leaves_toolbar 20 [0%nat] editorAB). lia. Defined.

Example toolbar_stale_after_first_move :
  toolbarShown (_onInstancesMoved 20 [0%nat] editorAB) = Some (false, false).
Proof. reflexivity. Qed.

(** ** The layer dialog *)

Lemma findInstance_None (r : InstanceRef) (l : list (InstanceRef * InitialInstance)) :
  r ∉ l.*1 → findInstance r l = None.
Proof.
  induction l as [|[r' i] l IH]; simpl; [done|].
  intros [Hne Hr]%not_elem_of_cons.
  destruct (Nat.eqb r' r) eqn:E; [|by apply IH].
  apply Nat.eqb_eq in E. congruence.
Qed.

Lemma findInstance_Some (r : InstanceRef) (l : list (InstanceRef * InitialInstance))
    (i : InitialInstance) :
  findInstance r l = Some i → (r, i) ∈ l.
Proof.
  induction l as [|[r' i'] l IH]; simpl; [done|].
  destruct (Nat.eqb r' r) eqn:E.
  - apply Nat.eqb_eq in E. intros [= ->]. subst. by left.
  - intros H. right. by apply IH.
Qed.

Lemma refs_unique (l : list (InstanceRef * InitialInstance)) (r : InstanceRef)
    (i i' : InitialInstance) :
  NoDup l.*1 → (r, i) ∈ l → (r, i') ∈ l → i = i'.
Proof.
  induction l as [|[r0 i0] l IH]; simpl; intros Hnd H1 H2.
  - by apply elem_of_nil in H1.
  - apply NoDup_cons in Hnd as [Hnotin Hnd].
    apply elem_of_cons in H1 as [H1|H1]; apply elem_of_cons in H2 as [H2|H2];
      simplify_eq; [done| | |by eapply IH].
    + exfalso. apply Hnotin. apply list_elem_of_fmap. by exists (r0, i').
    + exfalso. apply Hnotin. apply list_elem_of_fmap. by exists (r0, i).
Qed.

(** A layer removed with its instances leaves the selection as it is. When
    the references of the container are distinct, an instance that was
    selected and sat on that layer is gone from the container and still in
    the selection. *)
Theorem removeLayer_leaves_stale_selection (layerName : string) (e : Editor)
    (r : InstanceRef) (i : InitialInstance) :
  NoDup (refs (initialInstances e)) →
  r ∈ getSelectedInstances (instancesSelection e) →
  lookupInstance r (initialInstances e) = Some i →
  getLayer i = layerName →
  ∃ e', removeLayer layerName DeleteInstances e = Some e'
        ∧ instancesSelection e' = instancesSelection e
        ∧ r ∈ getSelectedInstances (instancesSelection e')
        ∧ lookupInstance r (initialInstances e') = None.
Proof.
  intros Hnd Hsel Hi Hlayer. eexists. split; [reflexivity|]. simpl.
  split; [reflexivity|]. split; [exact Hsel|].
  unfold lookupInstance; simpl. apply findInstance_None.
  intros (q & Hq1 & (Hq2 & Hq3)%list_elem_of_filter)%list_elem_of_fmap.
  destruct q as [r' i']. simpl in *. subst r'.
  apply findInstance_Some in Hi.
  assert (i' = i) by (eapply refs_unique; eauto).
  congruence.
Qed.

Lemma removeLayer_leaves_stale_selection_witness :
  ∃ e', removeLayer "L1" DeleteInstances editorASelected = Some e'
        ∧ instancesSelection e' = instancesSelection editorASelected
        ∧ 0%nat ∈ getSelectedInstances (instancesSelection e')
        ∧ lookupInstance 0%nat (initialInstances e') = None.
Proof.
  apply (removeLayer_leaves_stale_selection "L1" editorASelected 0%nat
           {| getObjectName := "A"; getX := 10; getY := 20;
              getZOrder := 1; getLayer := "L1" |}).
  - apply (bool_decide_unpack (NoDup [0%nat; 1%nat])). exact I.
  - apply (bool_decide_unpack (0%nat ∈ [0%nat])). exact I.
  - reflexivity.
  - reflexivity.
Defined.

(** Closing the layer dialog without confirming leaves the container, the
    history and the selection as they are, with either answer for the new
    layer; the caller is told through [done(false)], and the renderers are
    remounted all the same. *)
Theorem layer_removal_cancelled (layerName : string) (newLayer : option string)
    (e : Editor) :
  ∃ e', onClose false newLayer (_onRemoveLayer layerName e) = Some e'
        ∧ initialInstances e' = initialInstances e
        ∧ history (state e') = history (state e)
        ∧ instancesSelection e' = instancesSelection e
        ∧ layerRemoveDialogOpen (state e') = false
        ∧ effects e'
          = effects e ++ [Done false; ForceRemount;
                          SetToolbar (History.canUndo (history (state e)))
                                     (History.canRedo (history (state e)))].
Proof.
  eexists. split; [reflexivity|]. simpl. repeat split.
  by rewrite <- !app_assoc.
Qed.

(** ** Ordering game objects by z-order *)

(** [SortByZOrder] is a strict weak ordering, as sorting with it requires: no
    object comes before itself, coming before is transitive, and so is being
    tied, which is having the same z-order. *)
Theorem SortByZOrder_strict_weak_ordering (o1 o2 o3 : ObjectHelpers.Object) :
  ObjectHelpers.SortByZOrder o1 o1 = false
  ∧ (ObjectHelpers.SortByZOrder o1 o2 = true →
     ObjectHelpers.SortByZOrder o2 o3 = true →
     ObjectHelpers.SortByZOrder o1 o3 = true)
  ∧ (ObjectHelpers.SortByZOrder o1 o2 = false ∧ ObjectHelpers.SortByZOrder o2 o1 = false
     ↔ ObjectHelpers.GetZOrder o1 = ObjectHelpers.GetZOrder o2)
  ∧ (ObjectHelpers.SortByZOrder o1 o2 = false → ObjectHelpers.SortByZOrder o2 o1 = false →
     ObjectHelpers.SortByZOrder o2 o3 = false → ObjectHelpers.SortByZOrder o3 o2 = false →
     ObjectHelpers.SortByZOrder o1 o3 = false ∧ ObjectHelpers.SortByZOrder o3 o1 = false).
Proof.
  unfold ObjectHelpers.SortByZOrder.
  rewrite !Z.ltb_lt, !Z.ltb_ge. repeat split; lia.
Qed.

Lemma SortByZOrder_strict_weak_ordering_witness :
  ObjectHelpers.SortByZOrder
    {| ObjectHelpers.GetName := "a"; ObjectHelpers.GetZOrder := -2 |}
    {| ObjectHelpers.GetName := "c"; ObjectHelpers.GetZOrder := 7 |} = true.
Proof.
  apply (SortByZOrder_strict_weak_ordering
           {| ObjectHelpers.GetName := "a"; ObjectHelpers.GetZOrder := -2 |}
           {| ObjectHelpers.GetName := "b"; ObjectHelpers.GetZOrder := 3 |}
           {| ObjectHelpers.GetName := "c"; ObjectHelpers.GetZOrder := 7 |});
    reflexivity.
Defined.

(** ** Undoing an edit *)

Lemma last_capped (depth : nat) (past : list HistoryEntry) (entry : HistoryEntry) :
  (0 < depth)%nat → last (History.capped depth (past ++ [entry])) = Some entry.
Proof.
  intros Hd. unfold History.capped. rewrite length_app. simpl.
  rewrite drop_app_le by lia. apply last_snoc.
Qed.

Lemma undo_after_commit (depth : nat) (e e' : Editor) :
  (0 < depth)%nat →
  history (state e')
  = History.saveToHistory depth (history (state e)) (initialInstances e') →
  snapshot (initialInstances (undo e')) = present (history (state e))
  ∧ present (history (state (undo e'))) = present (history (state e))
  ∧ future (history (state (undo e'))) = [snapshot (initialInstances e')].
Proof.
  intros Hd Hh. unfold undo, History.undo. rewrite Hh. simpl.
  rewrite (last_capped depth _ _ Hd). simpl.
  by rewrite snapshot_restore.
Qed.

(** With a history that keeps at least one entry and whose present is the
    content of the container, every edit can be undone: after a deletion, a
    successful addition, or a move committed on whatever the canvas has made
    of the container, [undo] brings the content back to what it was before
    the edit, and what was undone is the one thing that can be redone. *)
Theorem undo_reverts_edit (depth : nat) (x y : Js.Num) (objectName : option string)
    (rs : list InstanceRef) (moved : InitialInstancesContainer) (e : Editor) :
  (0 < depth)%nat → inSync e →
  let reverts (e' : Editor) :=
    snapshot (initialInstances (undo e')) = snapshot (initialInstances e)
    ∧ future (history (state (undo e'))) = [snapshot (initialInstances e')] in
  reverts (deleteSelection depth e)
  ∧ (falsyName (newInstanceObjectName objectName e) = false →
     reverts (_onAddInstance depth x y objectName e))
  ∧ reverts (_onInstancesMoved depth rs (withInstances moved e)).
Proof.
  intros Hd Hs. unfold inSync in Hs. simpl. rewrite <- Hs.
  assert (Hrev : ∀ e', history (state e')
                       = History.saveToHistory depth (history (state e))
                           (initialInstances e') →
                       snapshot (initialInstances (undo e')) = present (history (state e))
                       ∧ future (history (state (undo e')))
                         = [snapshot (initialInstances e')]).
  { intros e' He'. destruct (undo_after_commit depth e e' Hd He') as (H1 & _ & H3).
    by split. }
  split; [|split].
  - by apply Hrev.
  - intros Hname. apply Hrev.
    destruct (falsyName_inv _ Hname) as (n & Hn & Hne).
    apply (_onAddInstance_history depth x y objectName e n Hn Hne).
  - by apply Hrev.
Qed.

Lemma undo_reverts_edit_witness :
  (snapshot (initialInstances (undo (deleteSelection 20 editorASelected)))
   = snapshot (initialInstances editorASelected)
   ∧ future (history (state (undo (deleteSelection 20 editorASelected))))
     = [snapshot (initialInstances (deleteSelection 20 editorASelected))])
  ∧ (snapshot (initialInstances
                 (undo (_onAddInstance 20 7 8 (Some "Hero") editorASelected)))
     = snapshot (initialInstances editorASelected)
     ∧ future (history (state (undo (_onAddInstance 20 7 8 (Some "Hero") editorASelected))))
       = [snapshot (initialInstances
                      (_onAddInstance 20 7 8 (Some "Hero") editorASelected))]).
Proof.
  pose proof (undo_reverts_edit 20 7 8 (Some "Hero") [0%nat]
                (setX 0%nat 99 sceneAB) editorASelected
                ltac:(lia) eq_refl) as (Hdel & Hadd & _).
  split; [exact Hdel|exact (Hadd eq_refl)].
Defined.

(** ** The registry of Steam lobbies *)

Lemma listed_fields (lobbies : list Steamworks.Lobby) (v : Steamworks.Variables) :
  Steamworks.steamAPI
    (foldl (λ v lobby, Steamworks.know (Steamworks.idString lobby) lobby v) v lobbies)
  = Steamworks.steamAPI v
  ∧ Steamworks.currentLobby
      (foldl (λ v lobby, Steamworks.know (Steamworks.idString lobby) lobby v) v lobbies)
    = Steamworks.currentLobby v
  ∧ Steamworks.logged
      (foldl (λ v lobby, Steamworks.know (Steamworks.idString lobby) lobby v) v lobbies)
    = Steamworks.logged v.
Proof.
  revert v. induction lobbies as [|a lobbies IH]; intros v; simpl; [done|].
  destruct (IH (Steamworks.know (Steamworks.idString a) a v)) as (-> & -> & ->). done.
Qed.

Lemma listed_other (lobbies : list Steamworks.Lobby) (v : Steamworks.Variables)
    (id : string) :
  id ∉ Steamworks.idString <$> lobbies →
  Steamworks.knownLobbies
    (foldl (λ v lobby, Steamworks.know (Steamworks.idString lobby) lobby v) v lobbies)
  !! id
  = Steamworks.knownLobbies v !! id.
Proof.
  revert v. induction lobbies as [|a lobbies IH]; intros v; simpl; [done|].
  intros [Hne Hid]%not_elem_of_cons. rewrite IH by done. simpl.
  by rewrite lookup_insert_ne.
Qed.

Lemma listed_known (lobbies : list Steamworks.Lobby) (v : Steamworks.Variables)
    (lobby : Steamworks.Lobby) :
  lobby ∈ lobbies →
  Steamworks.knownLobbies
    (foldl (λ v lobby, Steamworks.know (Steamworks.idString lobby) lobby v) v lobbies)
  !! Steamworks.idString lobby
  = Some lobby.
Proof.
  revert v. induction lobbies as [|a lobbies IH]; intros v; simpl.
  { by intros ?%elem_of_nil. }
  intros Hin. destruct (decide (lobby ∈ lobbies)) as [Hrest|Hrest]; [by apply IH|].
  apply elem_of_cons in Hin as [->|Hin]; [|done].
  rewrite listed_other; [simpl; by rewrite lookup_insert_eq|].
  intros (l & Hl & Hl')%list_elem_of_fmap.
  apply (inj pretty) in Hl. by subst l.
Qed.

(** When Steam answers [getLobbiesList], the result receives the decimal
    identifiers of the lobbies in order, each listed lobby is known under its
    decimal identifier, so that [getKnownLobby] finds it and logs nothing when
    Steam is loaded, and what was known under any other identifier still is;
    the current lobby is not changed. *)
Theorem getLobbiesList_then_registers (lobbies : list Steamworks.Lobby)
    (v : Steamworks.Variables) :
  (Steamworks.getLobbiesList_then lobbies v).1
  = Steamworks.FromJSObject (Steamworks.idString <$> lobbies)
  ∧ (∀ lobby, lobby ∈ lobbies →
       Steamworks.knownLobbies (Steamworks.getLobbiesList_then lobbies v).2
       !! Steamworks.idString lobby = Some lobby)
  ∧ (∀ id, id ∉ Steamworks.idString <$> lobbies →
       Steamworks.knownLobbies (Steamworks.getLobbiesList_then lobbies v).2 !! id
       = Steamworks.knownLobbies v !! id)
  ∧ (Steamworks.steamAPI v = true →
     ∀ lobby, lobby ∈ lobbies →
       Steamworks.getKnownLobby (Steamworks.idString lobby)
         (Steamworks.getLobbiesList_then lobbies v).2
       = (Some lobby, (Steamworks.getLobbiesList_then lobbies v).2))
  ∧ Steamworks.currentLobby (Steamworks.getLobbiesList_then lobbies v).2
    = Steamworks.currentLobby v.
Proof.
  unfold Steamworks.getLobbiesList_then; simpl.
  destruct (listed_fields lobbies v) as (Hapi & Hcur & _).
  split; [done|]. split; [intros; by apply listed_known|].
  split; [intros; by apply listed_other|]. split; [|done].
  intros Hloaded lobby Hin. unfold Steamworks.getKnownLobby.
  rewrite Hapi, Hloaded. simpl. by rewrite listed_known.
Qed.

Lemma getLobbiesList_then_registers_witness :
  Steamworks.getKnownLobby (Steamworks.idString 42%N)
    (Steamworks.getLobbiesList_then [76561197960265728%N; 42%N] Steamworks.loaded).2
  = (Some 42%N,
     (Steamworks.getLobbiesList_then [76561197960265728%N; 42%N] Steamworks.loaded).2).
Proof.
  apply (getLobbiesList_then_registers [76561197960265728%N; 42%N] Steamworks.loaded);
    [reflexivity|].
  apply (bool_decide_unpack (42%N ∈ [76561197960265728%N; 42%N])). exact I.
Defined.

(** With Steam loaded: after a lobby is created, the identifier written to
    the result is the current lobby's, and [getKnownLobby] of it finds that
    lobby. After a lobby is joined, the identifier written is the one the
    caller gave and the lobby is known under it, while the current lobby's
    identifier is the lobby's own decimal one: when the two differ and the
    lobby was not known before, the current lobby's identifier names no known
    lobby. *)
Theorem lobby_entered (lobbyId : string) (lobby : Steamworks.Lobby)
    (v : Steamworks.Variables) :
  Steamworks.steamAPI v = true →
  ((Steamworks.createLobby_then lobby v).1
   = Steamworks.SetString
       (Steamworks.getCurrentLobbyId (Steamworks.createLobby_then lobby v).2)
   ∧ Steamworks.getKnownLobby
       (Steamworks.getCurrentLobbyId (Steamworks.createLobby_then lobby v).2)
       (Steamworks.createLobby_then lobby v).2
     = (Some lobby, (Steamworks.createLobby_then lobby v).2))
  ∧ ((Steamworks.joinLobby_then lobbyId lobby v).1 = Steamworks.SetString lobbyId
     ∧ Steamworks.getKnownLobby lobbyId (Steamworks.joinLobby_then lobbyId lobby v).2
       = (Some lobby, (Steamworks.joinLobby_then lobbyId lobby v).2)
     ∧ Steamworks.getCurrentLobbyId (Steamworks.joinLobby_then lobbyId lobby v).2
       = Steamworks.idString lobby
     ∧ (lobbyId ≠ Steamworks.idString lobby →
        Steamworks.knownLobbies v !! Steamworks.idString lobby = None →
        (Steamworks.getKnownLobby
           (Steamworks.getCurrentLobbyId (Steamworks.joinLobby_then lobbyId lobby v).2)
           (Steamworks.joinLobby_then lobbyId lobby v).2).1 = None)).
Proof.
  intros Hloaded.
  unfold Steamworks.createLobby_then, Steamworks.joinLobby_then,
    Steamworks.getCurrentLobbyId, Steamworks.getKnownLobby; simpl.
  rewrite Hloaded; simpl. rewrite !lookup_insert_eq. repeat split.
  intros Hne Hnone. rewrite lookup_insert_ne by done. by rewrite Hnone.
Qed.

Lemma lobby_entered_witness :
  (Steamworks.getKnownLobby
     (Steamworks.getCurrentLobbyId (Steamworks.joinLobby_then "007" 7%N Steamworks.loaded).2)
     (Steamworks.joinLobby_then "007" 7%N Steamworks.loaded).2).1 = None.
Proof.
  apply (lobby_entered "007" 7%N Steamworks.loaded); [reflexivity|discriminate|reflexivity].
Defined.

Lemma react_keeps (BigInt : string → option N) (ev : Steamworks.Event)
    (v : Steamworks.Variables) :
  Steamworks.steamAPI (Steamworks.react BigInt ev v) = Steamworks.steamAPI v
  ∧ (∀ id, is_Some (Steamworks.knownLobbies v !! id) →
           is_Some (Steamworks.knownLobbies (Steamworks.react BigInt ev v) !! id))
  ∧ (is_Some (Steamworks.currentLobby v) →
     is_Some (Steamworks.currentLobby (Steamworks.react BigInt ev v))).
Proof.
  destruct ev; simpl.
  - unfold Steamworks.createLobby.
    destruct (Steamworks.steamAPI v) eqn:E; simpl; by rewrite ?E.
  - split; [done|]. split; [|intros _; by eexists].
    intros id Hid. destruct (decide (Steamworks.idString lobby = id)) as [<-|Hne].
    + rewrite lookup_insert_eq. by eexists.
    + by rewrite lookup_insert_ne.
  - unfold Steamworks.getLobbiesList.
    destruct (Steamworks.steamAPI v) eqn:E; simpl; by rewrite ?E.
  - destruct (listed_fields lobbies v) as (-> & -> & _). split; [done|]. split; [|done].
    intros id Hid.
    destruct (decide (id ∈ Steamworks.idString <$> lobbies)) as [Hin|Hout].
    + apply list_elem_of_fmap in Hin as (l & -> & Hl).
      rewrite listed_known by done. by eexists.
    + by rewrite listed_other.
  - unfold Steamworks.joinLobby.
    destruct (Steamworks.steamAPI v) eqn:E; simpl; [|by rewrite E].
    destruct (BigInt lobbyId); simpl; by rewrite ?E.
  - split; [done|]. split; [|intros _; by eexists].
    intros id Hid. destruct (decide (lobbyId = id)) as [<-|Hne].
    + rewrite lookup_insert_eq. by eexists.
    + by rewrite lookup_insert_ne.
  - done.
  - unfold Steamworks.getKnownLobby.
    destruct (Steamworks.steamAPI v) eqn:E; simpl; [|by rewrite E].
    destruct (Steamworks.knownLobbies v !! lobbyId); simpl; by rewrite ?E.
  - unfold Steamworks.leaveCurrentLobby.
    destruct (Steamworks.currentLobby v) eqn:E; simpl; by rewrite ?E.
  - unfold Steamworks.openDialogForInvitingUsersToTheCurrentLobby.
    destruct (Steamworks.currentLobby v) eqn:E; simpl; by rewrite ?E.
Qed.

(** Whatever the game calls and whatever Steam answers, in any order: a
    lobby identifier that is known stays known, and once there is a current
    lobby there always is one; in particular leaving the current lobby
    forgets neither. Whether Steam is loaded does not change either. *)
Theorem lobbies_never_forgotten (BigInt : string → option N)
    (events : list Steamworks.Event) (v : Steamworks.Variables) :
  Steamworks.steamAPI (Steamworks.run BigInt events v) = Steamworks.steamAPI v
  ∧ (∀ id, is_Some (Steamworks.knownLobbies v !! id) →
           is_Some (Steamworks.knownLobbies (Steamworks.run BigInt events v) !! id))
  ∧ (is_Some (Steamworks.currentLobby v) →
     is_Some (Steamworks.currentLobby (Steamworks.run BigInt events v))).
Proof.
  revert v. induction events as [|ev events IH]; intros v; simpl; [done|].
  destruct (react_keeps BigInt ev v) as (Hapi & Hknown & Hcur).
  destruct (IH (Steamworks.react BigInt ev v)) as (Hapi' & Hknown' & Hcur').
  split; [congruence|]. split; auto.
Qed.

Lemma lobbies_never_forgotten_witness :
  is_Some
    (Steamworks.currentLobby
       (Steamworks.run (λ _, Some 42%N)
          [Steamworks.CallLeaveCurrentLobby; Steamworks.CallGetLobbiesList;
           Steamworks.LobbiesListed [5%N]; Steamworks.PromiseRejected]
          (Steamworks.createLobby_then 42%N Steamworks.loaded).2))
  ∧ Steamworks.getCurrentLobbyId
      (Steamworks.leaveCurrentLobby (Steamworks.createLobby_then 42%N Steamworks.loaded).2)
    = "42".
Proof.
  split; [|reflexivity].
  apply (lobbies_never_forgotten (λ _, Some 42%N)). by eexists.
Defined.

(** The two ways to read an attribute of the current lobby agree when Steam
    is loaded and the current lobby is known under its decimal identifier, as
    it is after [createLobby]: [getLobbyAttribute] of the current lobby's
    identifier gives what [getCurrentLobbyAttribute] gives, an absent
    attribute reading as the empty string, and logs nothing. When Steam is
    not loaded, [getLobbyAttribute] gives the empty string and logs a
    warning, whatever is known. *)
Theorem current_lobby_attribute_agrees (getData : Steamworks.Lobby → string → option string)
    (attribute : string) (lobby : Steamworks.Lobby) (v : Steamworks.Variables) :
  (Steamworks.steamAPI v = true →
   Steamworks.getLobbyAttribute getData
     (Steamworks.getCurrentLobbyId (Steamworks.createLobby_then lobby v).2) attribute
     (Steamworks.createLobby_then lobby v).2
   = (Steamworks.getCurrentLobbyAttribute getData attribute
        (Steamworks.createLobby_then lobby v).2,
      (Steamworks.createLobby_then lobby v).2)
   ∧ Steamworks.getCurrentLobbyAttribute getData attribute
       (Steamworks.createLobby_then lobby v).2
     = default "" (getData lobby attribute))
  ∧ (Steamworks.steamAPI v = false →
     ∀ lobbyId,
       (Steamworks.getLobbyAttribute getData lobbyId attribute v).1 = ""
       ∧ Steamworks.logged (Steamworks.getLobbyAttribute getData lobbyId attribute v).2
         = Steamworks.logged v
           ++ [Steamworks.Warn ("Could not access lobby '" +:+ lobbyId
                                +:+ "', steamworks was not properly loaded!")]).
Proof.
  split; intros Hapi.
  - unfold Steamworks.getLobbyAttribute, Steamworks.getKnownLobby,
      Steamworks.getCurrentLobbyAttribute, Steamworks.getCurrentLobbyId,
      Steamworks.createLobby_then; simpl.
    rewrite Hapi; simpl. by rewrite lookup_insert_eq.
  - intros lobbyId.
    unfold Steamworks.getLobbyAttribute, Steamworks.getKnownLobby.
    rewrite Hapi; simpl. done.
Qed.

Lemma current_lobby_attribute_agrees_witness :
  Steamworks.getLobbyAttribute (λ _ key, if String.eqb key "map" then Some "arena" else None)
    (Steamworks.getCurrentLobbyId (Steamworks.createLobby_then 42%N Steamworks.loaded).2)
    "map" (Steamworks.createLobby_then 42%N Steamworks.loaded).2
  = (Steamworks.getCurrentLobbyAttribute
       (λ _ key, if String.eqb key "map" then Some "arena" else None) "map"
       (Steamworks.createLobby_then 42%N Steamworks.loaded).2,
     (Steamworks.createLobby_then 42%N Steamworks.loaded).2)
  ∧ Steamworks.getCurrentLobbyAttribute
      (λ _ key, if String.eqb key "map" then Some "arena" else None) "map"
      (Steamworks.createLobby_then 42%N Steamworks.loaded).2
    = default "" (Some "arena").
Proof.
  apply (current_lobby_attribute_agrees
           (λ _ key, if String.eqb key "map" then Some "arena" else None)
           "map" 42%N Steamworks.loaded).
  reflexivity.
Defined.
